(** * GLOVE: render pass and shader objects

    A shallow embedding of [vulkanAPI::RenderPass] (renderPass.cpp) and of
    [Shader] (GLES/source/resources/shader.cpp), and the properties of the
    two classes that their description states.

    Conventions of the embedding.
    - A C++ object is a record of its members; a method is a computation in
      the monad [M], which threads the object, records every call made to the
      Vulkan driver (or to the shader compiler) in a trace, and can stop in
      three ways: the method returns, the process is aborted ([assert], an
      uncaught exception), or the behaviour is undefined (a read or write
      outside a buffer).
    - [assert] depends on the build: it is compiled out when [NDEBUG] is
      defined.  The build is a parameter ([BuildConfig]) of every method that
      asserts.
    - What the driver answers is not decided by this code: the answer of a
      native creation call is an argument of the method that makes the call.
    - Fixed-width integers are [Z] with the wrap-around written out; handles
      are [Z] with [VK_NULL_HANDLE = 0]; a nullable pointer is an [option]. *)

From Stdlib Require Import Strings.String.
From Stdlib Require Import ZArith List Bool Strings.Byte Lia.
Import ListNotations.
Local Open Scope Z_scope.

(** ** Machine integers *)

Definition u32 (z : Z) : Z := z mod 2 ^ 32.

(** Conversion of a 32-bit pattern to [int] (two's complement). *)
Definition to_int (z : Z) : Z :=
  let r := z mod 2 ^ 32 in if r <? 2 ^ 31 then r else r - 2 ^ 32.

(** ** The part of the Vulkan interface the two classes use *)

Definition VkDevice := Z.
Definition VkRenderPass := Z.
Definition VkShaderModule := Z.
Definition VkCommandBuffer := Z.
Definition VkFramebuffer := Z.
Definition VK_NULL_HANDLE : Z := 0.

Definition VkFormat := Z.
Definition VK_FORMAT_UNDEFINED : VkFormat := 0.
Definition VK_FORMAT_R8G8B8A8_UNORM : VkFormat := 37.
Definition VK_FORMAT_D24_UNORM_S8_UINT : VkFormat := 129.

Definition VkResult := Z.
Definition VK_SUCCESS : VkResult := 0.
Definition VK_ERROR_OUT_OF_HOST_MEMORY : VkResult := -1.
Definition VK_ERROR_OUT_OF_DEVICE_MEMORY : VkResult := -2.
Definition VK_ERROR_INITIALIZATION_FAILED : VkResult := -3.
Definition VK_ERROR_DEVICE_LOST : VkResult := -4.

Inductive VkAttachmentLoadOp :=
| VK_ATTACHMENT_LOAD_OP_LOAD
| VK_ATTACHMENT_LOAD_OP_CLEAR
| VK_ATTACHMENT_LOAD_OP_DONT_CARE.

Inductive VkAttachmentStoreOp :=
| VK_ATTACHMENT_STORE_OP_STORE
| VK_ATTACHMENT_STORE_OP_DONT_CARE.

Inductive VkImageLayout :=
| VK_IMAGE_LAYOUT_UNDEFINED
| VK_IMAGE_LAYOUT_GENERAL
| VK_IMAGE_LAYOUT_COLOR_ATTACHMENT_OPTIMAL
| VK_IMAGE_LAYOUT_DEPTH_STENCIL_ATTACHMENT_OPTIMAL.

Inductive VkSampleCountFlagBits := VK_SAMPLE_COUNT_1_BIT.

Inductive VkSubpassContents :=
| VK_SUBPASS_CONTENTS_INLINE
| VK_SUBPASS_CONTENTS_SECONDARY_COMMAND_BUFFERS.

Inductive VkPipelineBindPoint :=
| VK_PIPELINE_BIND_POINT_GRAPHICS
| VK_PIPELINE_BIND_POINT_COMPUTE.

Inductive VkStructureType :=
| VK_STRUCTURE_TYPE_RENDER_PASS_CREATE_INFO
| VK_STRUCTURE_TYPE_RENDER_PASS_BEGIN_INFO
| VK_STRUCTURE_TYPE_SHADER_MODULE_CREATE_INFO.

Record VkAttachmentDescription := {
  ad_flags          : Z;
  format            : VkFormat;
  samples           : VkSampleCountFlagBits;
  loadOp            : VkAttachmentLoadOp;
  storeOp           : VkAttachmentStoreOp;
  stencilLoadOp     : VkAttachmentLoadOp;
  stencilStoreOp    : VkAttachmentStoreOp;
  initialLayout     : VkImageLayout;
  finalLayout       : VkImageLayout
}.

Record VkAttachmentReference := {
  attachment : Z;
  layout     : VkImageLayout
}.

(** The array members of the Vulkan structures are pointers; [None] is the
    null pointer. *)
Record VkSubpassDescription := {
  sp_flags                : Z;
  pipelineBindPoint       : VkPipelineBindPoint;
  inputAttachmentCount    : Z;
  pInputAttachments       : option (list VkAttachmentReference);
  colorAttachmentCount    : Z;
  pColorAttachments       : option VkAttachmentReference;
  pResolveAttachments     : option (list VkAttachmentReference);
  pDepthStencilAttachment : option VkAttachmentReference;
  preserveAttachmentCount : Z;
  pPreserveAttachments    : option (list Z)
}.

Record VkRenderPassCreateInfo := {
  rp_sType         : VkStructureType;
  rp_flags         : Z;
  attachmentCount  : Z;
  pAttachments     : list VkAttachmentDescription;
  subpassCount     : Z;
  pSubpasses       : list VkSubpassDescription;
  dependencyCount  : Z;
  pDependencies    : option (list Z)
}.

(** A [float] is only ever copied by this code: it is kept as its 32-bit
    pattern. *)
Definition float := Z.

Record VkRect2D := { offset_x : Z; offset_y : Z; extent_w : Z; extent_h : Z }.

(** [VkClearValue] is a union, zeroed by [memset] and then written through
    one of its two members. *)
Inductive VkClearValue :=
| color_float32 (r g b a : float)
| depthStencil (depth : float) (stencil : Z).

Record VkRenderPassBeginInfo := {
  bi_sType        : VkStructureType;
  renderPass      : VkRenderPass;
  framebuffer     : VkFramebuffer;
  renderArea      : VkRect2D;
  clearValueCount : Z;
  pClearValues    : list VkClearValue
}.

Record VkShaderModuleCreateInfo := {
  sm_sType : VkStructureType;
  sm_flags : Z;
  codeSize : Z;
  pCode    : list Z
}.

Record vkContext_t := { vkDevice : VkDevice }.

(** ** Shader side types *)

Inductive shader_type_t :=
| SHADER_TYPE_INVALID
| SHADER_TYPE_VERTEX
| SHADER_TYPE_FRAGMENT.

Inductive ESSL_VERSION := ESSL_VERSION_100 | ESSL_VERSION_300.

(** A [char] of a buffer obtained from [new char[n]] holds an indeterminate
    value ([None]) until it is written. *)
Definition cell := option byte.

(** The shader compiler is an external object; only its identity is kept. *)
Definition ShaderCompiler := nat.

(** ** Calls that leave the two classes *)

Inductive Event :=
| vkDestroyRenderPass (dev : VkDevice) (h : VkRenderPass)
| vkCreateRenderPass (dev : VkDevice) (info : VkRenderPassCreateInfo)
| vkCmdBeginRenderPass (cb : VkCommandBuffer) (info : VkRenderPassBeginInfo)
                       (contents : VkSubpassContents)
| vkCmdEndRenderPass (cb : VkCommandBuffer)
| vkDestroyShaderModule (dev : VkDevice) (h : VkShaderModule)
| vkCreateShaderModule (dev : VkDevice) (info : VkShaderModuleCreateInfo)
| EnableSaveSourceToFiles (c : ShaderCompiler)
| GlslPrintShaderSource (ty : shader_type_t) (v : ESSL_VERSION) (src : list cell).

Definition Trace := list Event.

(** ** Build configuration *)

Record BuildConfig := {
  NDEBUG                             : bool;
  GLOVE_SAVE_SHADER_SOURCES_TO_FILES : bool;
  GLOVE_DUMP_ORIGINAL_SHADER_SOURCE  : bool
}.

Definition debug_build : BuildConfig :=
  {| NDEBUG := false;
     GLOVE_SAVE_SHADER_SOURCES_TO_FILES := false;
     GLOVE_DUMP_ORIGINAL_SHADER_SOURCE := false |}.

Definition release_build : BuildConfig :=
  {| NDEBUG := true;
     GLOVE_SAVE_SHADER_SOURCES_TO_FILES := false;
     GLOVE_DUMP_ORIGINAL_SHADER_SOURCE := false |}.

(** ** The monad of methods *)

Inductive Outcome (A : Type) : Type :=
| Returned (a : A) (tr : Trace)
| Aborted (tr : Trace)
| Undefined.

Arguments Returned {A} a tr.
Arguments Aborted {A} tr.
Arguments Undefined {A}.

Definition M (S A : Type) : Type := S -> Trace -> Outcome (A * S).

Definition ret {S A} (a : A) : M S A := fun s tr => Returned (a, s) tr.

Definition bind {S A B} (m : M S A) (k : A -> M S B) : M S B :=
  fun s tr =>
    match m s tr with
    | Returned (a, s') tr' => k a s' tr'
    | Aborted tr' => Aborted tr'
    | Undefined => Undefined
    end.

Declare Scope method_scope.
Delimit Scope method_scope with method.
Notation "x <- m ;; k" := (bind m (fun x => k))
  (at level 61, m at next level, right associativity) : method_scope.
Notation "m ;; k" := (bind m (fun _ => k))
  (at level 61, right associativity) : method_scope.
Local Open Scope method_scope.

Definition get {S} : M S S := fun s tr => Returned (s, s) tr.
Definition modify {S} (f : S -> S) : M S unit := fun s tr => Returned (tt, f s) tr.
Definition call {S} (e : Event) : M S unit := fun s tr => Returned (tt, s) (tr ++ [e]).
Definition abort {S A} : M S A := fun _ tr => Aborted tr.
Definition undefined {S A} : M S A := fun _ _ => Undefined.

Definition when {S} (b : bool) (m : M S unit) : M S unit :=
  if b then m else ret tt.

(** [assert(e)]: nothing under [NDEBUG]; otherwise aborts when [e] is false. *)
Definition assert {S} (cfg : BuildConfig) (e : bool) : M S unit :=
  if NDEBUG cfg then ret tt else if e then ret tt else abort.

(** Lifting of a partial pure step: [None] is undefined behaviour. *)
Definition defined {S A} (o : option A) : M S A :=
  match o with Some a => ret a | None => undefined end.

(** * RenderPass (renderPass.cpp) *)

Module RenderPass.

Record RenderPass := {
  mVkContext           : vkContext_t;
  mVkSubpassContents   : VkSubpassContents;
  mVkPipelineBindPoint : VkPipelineBindPoint;
  mVkRenderPass        : VkRenderPass;
  mColorClearEnabled   : bool;
  mDepthClearEnabled   : bool;
  mStencilClearEnabled : bool;
  mColorWriteEnabled   : bool;
  mDepthWriteEnabled   : bool;
  mStencilWriteEnabled : bool;
  mStarted             : bool
}.

Definition set_mVkRenderPass (h : VkRenderPass) (this : RenderPass) : RenderPass :=
  {| mVkContext := mVkContext this;
     mVkSubpassContents := mVkSubpassContents this;
     mVkPipelineBindPoint := mVkPipelineBindPoint this;
     mVkRenderPass := h;
     mColorClearEnabled := mColorClearEnabled this;
     mDepthClearEnabled := mDepthClearEnabled this;
     mStencilClearEnabled := mStencilClearEnabled this;
     mColorWriteEnabled := mColorWriteEnabled this;
     mDepthWriteEnabled := mDepthWriteEnabled this;
     mStencilWriteEnabled := mStencilWriteEnabled this;
     mStarted := mStarted this |}.

Definition set_mStarted (b : bool) (this : RenderPass) : RenderPass :=
  {| mVkContext := mVkContext this;
     mVkSubpassContents := mVkSubpassContents this;
     mVkPipelineBindPoint := mVkPipelineBindPoint this;
     mVkRenderPass := mVkRenderPass this;
     mColorClearEnabled := mColorClearEnabled this;
     mDepthClearEnabled := mDepthClearEnabled this;
     mStencilClearEnabled := mStencilClearEnabled this;
     mColorWriteEnabled := mColorWriteEnabled this;
     mDepthWriteEnabled := mDepthWriteEnabled this;
     mStencilWriteEnabled := mStencilWriteEnabled this;
     mStarted := b |}.

(** [RenderPass::RenderPass(const vkContext_t *vkContext)] *)
Definition new (vkContext : vkContext_t) : RenderPass :=
  {| mVkContext := vkContext;
     mVkSubpassContents := VK_SUBPASS_CONTENTS_SECONDARY_COMMAND_BUFFERS;
     mVkPipelineBindPoint := VK_PIPELINE_BIND_POINT_GRAPHICS;
     mVkRenderPass := VK_NULL_HANDLE;
     mColorClearEnabled := false;
     mDepthClearEnabled := false;
     mStencilClearEnabled := false;
     mColorWriteEnabled := true;
     mDepthWriteEnabled := true;
     mStencilWriteEnabled := false;
     mStarted := false |}.

(** [void RenderPass::Release(void)] *)
Definition Release : M RenderPass unit :=
  this <- get ;;
  when (negb (mVkRenderPass this =? VK_NULL_HANDLE))
       (call (vkDestroyRenderPass (vkDevice (mVkContext this)) (mVkRenderPass this)) ;;
        modify (set_mVkRenderPass VK_NULL_HANDLE)).

(** The two attachment descriptions that [Create] fills in. *)
Definition attachmentColor (this : RenderPass) (colorFormat : VkFormat)
  : VkAttachmentDescription :=
  {| ad_flags       := 0;
     format         := colorFormat;
     samples        := VK_SAMPLE_COUNT_1_BIT;
     loadOp         := if mColorClearEnabled this
                       then VK_ATTACHMENT_LOAD_OP_CLEAR else VK_ATTACHMENT_LOAD_OP_DONT_CARE;
     storeOp        := if mColorWriteEnabled this
                       then VK_ATTACHMENT_STORE_OP_STORE else VK_ATTACHMENT_STORE_OP_DONT_CARE;
     stencilLoadOp  := VK_ATTACHMENT_LOAD_OP_DONT_CARE;
     stencilStoreOp := VK_ATTACHMENT_STORE_OP_DONT_CARE;
     initialLayout  := VK_IMAGE_LAYOUT_UNDEFINED;
     finalLayout    := VK_IMAGE_LAYOUT_COLOR_ATTACHMENT_OPTIMAL |}.

Definition attachmentDepthStencil (this : RenderPass) (depthstencilFormat : VkFormat)
  : VkAttachmentDescription :=
  {| ad_flags       := 0;
     format         := depthstencilFormat;
     samples        := VK_SAMPLE_COUNT_1_BIT;
     loadOp         := if mDepthClearEnabled this
                       then VK_ATTACHMENT_LOAD_OP_CLEAR else VK_ATTACHMENT_LOAD_OP_DONT_CARE;
     storeOp        := if mDepthWriteEnabled this
                       then VK_ATTACHMENT_STORE_OP_STORE else VK_ATTACHMENT_STORE_OP_DONT_CARE;
     stencilLoadOp  := if mStencilClearEnabled this
                       then VK_ATTACHMENT_LOAD_OP_CLEAR else VK_ATTACHMENT_LOAD_OP_DONT_CARE;
     stencilStoreOp := if mStencilWriteEnabled this
                       then VK_ATTACHMENT_STORE_OP_STORE else VK_ATTACHMENT_STORE_OP_DONT_CARE;
     initialLayout  := VK_IMAGE_LAYOUT_UNDEFINED;
     finalLayout    := VK_IMAGE_LAYOUT_DEPTH_STENCIL_ATTACHMENT_OPTIMAL |}.

(** [attachments.size() - 1], stored in a [uint32_t]. *)
Definition last_index (attachments : list VkAttachmentDescription) : Z :=
  u32 (Z.of_nat (length attachments) - 1).

(** The [VkRenderPassCreateInfo] that [Create] hands to the driver.  The
    locals [color] and [depthstencil] stay uninitialised ([None]) when their
    format is undefined. *)
Definition create_info (this : RenderPass) (colorFormat depthstencilFormat : VkFormat)
  : VkRenderPassCreateInfo :=
  let attachments : list VkAttachmentDescription := [] in
  let '(attachments, color) :=
    if negb (colorFormat =? VK_FORMAT_UNDEFINED) then
      let attachments := attachments ++ [attachmentColor this colorFormat] in
      (attachments,
       Some {| attachment := last_index attachments;
               layout := VK_IMAGE_LAYOUT_COLOR_ATTACHMENT_OPTIMAL |})
    else (attachments, None) in
  let '(attachments, depthstencil) :=
    if negb (depthstencilFormat =? VK_FORMAT_UNDEFINED) then
      let attachments := attachments ++ [attachmentDepthStencil this depthstencilFormat] in
      (attachments,
       Some {| attachment := last_index attachments;
               layout := VK_IMAGE_LAYOUT_DEPTH_STENCIL_ATTACHMENT_OPTIMAL |})
    else (attachments, None) in
  let subpass :=
    {| pipelineBindPoint       := mVkPipelineBindPoint this;
       sp_flags                := 0;
       colorAttachmentCount    := if negb (colorFormat =? VK_FORMAT_UNDEFINED) then 1 else 0;
       pColorAttachments       := if negb (colorFormat =? VK_FORMAT_UNDEFINED)
                                  then color else None;
       pDepthStencilAttachment := if negb (depthstencilFormat =? VK_FORMAT_UNDEFINED)
                                  then depthstencil else None;
       pResolveAttachments     := None;
       inputAttachmentCount    := 0;
       pInputAttachments       := None;
       preserveAttachmentCount := 0;
       pPreserveAttachments    := None |} in
  {| rp_sType        := VK_STRUCTURE_TYPE_RENDER_PASS_CREATE_INFO;
     rp_flags        := 0;
     attachmentCount := u32 (Z.of_nat (length attachments));
     pAttachments    := attachments;
     subpassCount    := 1;
     pSubpasses      := [subpass];
     dependencyCount := 0;
     pDependencies   := None |}.

(** [bool RenderPass::Create(VkFormat colorFormat, VkFormat depthstencilFormat)].
    [err] is what [vkCreateRenderPass] returns and [out] is the value it
    leaves in [mVkRenderPass] (the null handle left by [Release] when the
    driver writes nothing). *)
Definition Create (cfg : BuildConfig) (colorFormat depthstencilFormat : VkFormat)
                  (err : VkResult) (out : VkRenderPass) : M RenderPass bool :=
  Release ;;
  this <- get ;;
  call (vkCreateRenderPass (vkDevice (mVkContext this))
                           (create_info this colorFormat depthstencilFormat)) ;;
  modify (set_mVkRenderPass out) ;;
  assert cfg (err =? 0) ;;
  ret (negb (err =? VK_ERROR_OUT_OF_HOST_MEMORY)
       && negb (err =? VK_ERROR_OUT_OF_DEVICE_MEMORY)).

(** [void RenderPass::Begin(...)] *)
Definition Begin (activeCmdBuffer : VkCommandBuffer) (framebuffer : VkFramebuffer)
                 (rect : VkRect2D) (clearColorValue : float * float * float * float)
                 (clearDepthValue : float) (clearStencilValue : Z)
  : M RenderPass unit :=
  this <- get ;;
  let '(c0, c1, c2, c3) := clearColorValue in
  let clearValues :=
    [color_float32 c0 c1 c2 c3; depthStencil clearDepthValue clearStencilValue] in
  let info :=
    {| bi_sType        := VK_STRUCTURE_TYPE_RENDER_PASS_BEGIN_INFO;
       framebuffer     := framebuffer;
       renderPass      := mVkRenderPass this;
       renderArea      := rect;
       clearValueCount := 2;
       pClearValues    := clearValues |} in
  call (vkCmdBeginRenderPass activeCmdBuffer info (mVkSubpassContents this)) ;;
  modify (set_mStarted true).

(** [void RenderPass::End(VkCommandBuffer *activeCmdBuffer)] *)
Definition End (activeCmdBuffer : VkCommandBuffer) : M RenderPass unit :=
  this <- get ;;
  when (mStarted this)
       (modify (set_mStarted false) ;;
        call (vkCmdEndRenderPass activeCmdBuffer)).

End RenderPass.

(** ** Sequences of RenderPass operations *)

Module RenderPassOps.
Import RenderPass.

(** One call made by the owner of a render pass.  [OpCreate] carries the
    answer of the driver to that call. *)
Inductive Op :=
| OpCreate (colorFormat depthstencilFormat : VkFormat) (err : VkResult) (out : VkRenderPass)
| OpBegin (activeCmdBuffer : VkCommandBuffer) (framebuffer : VkFramebuffer)
          (rect : VkRect2D) (clearColorValue : float * float * float * float)
          (clearDepthValue : float) (clearStencilValue : Z)
| OpEnd (activeCmdBuffer : VkCommandBuffer)
| OpRelease.

Definition exec (cfg : BuildConfig) (op : Op) : M RenderPass unit :=
  match op with
  | OpCreate cf dsf err out => _ <- Create cfg cf dsf err out ;; ret tt
  | OpBegin cb fb rect col d s => Begin cb fb rect col d s
  | OpEnd cb => End cb
  | OpRelease => Release
  end.

Fixpoint run (cfg : BuildConfig) (ops : list Op) : M RenderPass unit :=
  match ops with
  | [] => ret tt
  | op :: rest => exec cfg op ;; run cfg rest
  end.

(** The states an owner can bring a render pass into. *)
Definition reachable (cfg : BuildConfig) (this : RenderPass) : Prop :=
  exists vkContext ops tr, run cfg ops (new vkContext) [] = Returned (tt, this) tr.

(** The invariant of the description: started only while a handle is held. *)
Definition started_implies_handle (this : RenderPass) : Prop :=
  mStarted this = true -> mVkRenderPass this <> VK_NULL_HANDLE.

(** What the caller has to see to for the invariant, the methods checking
    none of it: [Begin] only with a handle, [Release] only outside a
    recording scope, and a [Create] inside a recording scope only when the
    driver leaves a handle ([End], and [Create] outside a recording scope,
    are always fine). *)
Definition permitted (this : RenderPass) (op : Op) : bool :=
  match op with
  | OpBegin _ _ _ _ _ _ => negb (mVkRenderPass this =? VK_NULL_HANDLE)
  | OpRelease => negb (mStarted this)
  | OpCreate _ _ _ out => negb (mStarted this) || negb (out =? VK_NULL_HANDLE)
  | OpEnd _ => true
  end.

Fixpoint disciplined (cfg : BuildConfig) (ops : list Op) (this : RenderPass) (tr : Trace)
  : bool :=
  match ops with
  | [] => true
  | op :: rest =>
      permitted this op &&
      match exec cfg op this tr with
      | Returned (_, this') tr' => disciplined cfg rest this' tr'
      | _ => true
      end
  end.

End RenderPassOps.

(** * Shader (shader.cpp) *)

Module Shader.

(** [mSourceLength] is taken to be a [uint32_t], the type of the local
    lengths it accumulates and is compared with; [mSpv] is the vector of
    32-bit words of the binary. *)
Record Shader := {
  mVkContext      : vkContext_t;
  mVkShaderModule : VkShaderModule;
  mShaderCompiler : option ShaderCompiler;
  mSpv            : list Z;
  mSource         : option (list cell);
  mSourceLength   : Z;
  mShaderType     : shader_type_t;
  mShaderVersion  : ESSL_VERSION;
  mCompiled       : bool
}.

Definition set_mVkShaderModule (h : VkShaderModule) (this : Shader) : Shader :=
  {| mVkContext := mVkContext this; mVkShaderModule := h;
     mShaderCompiler := mShaderCompiler this; mSpv := mSpv this;
     mSource := mSource this; mSourceLength := mSourceLength this;
     mShaderType := mShaderType this; mShaderVersion := mShaderVersion this;
     mCompiled := mCompiled this |}.

Definition set_mSource (p : option (list cell)) (this : Shader) : Shader :=
  {| mVkContext := mVkContext this; mVkShaderModule := mVkShaderModule this;
     mShaderCompiler := mShaderCompiler this; mSpv := mSpv this;
     mSource := p; mSourceLength := mSourceLength this;
     mShaderType := mShaderType this; mShaderVersion := mShaderVersion this;
     mCompiled := mCompiled this |}.

Definition set_mSourceLength (n : Z) (this : Shader) : Shader :=
  {| mVkContext := mVkContext this; mVkShaderModule := mVkShaderModule this;
     mShaderCompiler := mShaderCompiler this; mSpv := mSpv this;
     mSource := mSource this; mSourceLength := n;
     mShaderType := mShaderType this; mShaderVersion := mShaderVersion this;
     mCompiled := mCompiled this |}.

Definition set_mCompiled (b : bool) (this : Shader) : Shader :=
  {| mVkContext := mVkContext this; mVkShaderModule := mVkShaderModule this;
     mShaderCompiler := mShaderCompiler this; mSpv := mSpv this;
     mSource := mSource this; mSourceLength := mSourceLength this;
     mShaderType := mShaderType this; mShaderVersion := mShaderVersion this;
     mCompiled := b |}.

(** [Shader::Shader(const vulkanAPI::vkContext_t *vkContext)] *)
Definition new (vkContext : vkContext_t) : Shader :=
  {| mVkContext := vkContext;
     mVkShaderModule := VK_NULL_HANDLE;
     mShaderCompiler := None;
     mSpv := [];
     mSource := None;
     mSourceLength := 0;
     mShaderType := SHADER_TYPE_INVALID;
     mShaderVersion := ESSL_VERSION_100;
     mCompiled := false |}.

(** *** Memory read by [SetShaderSource]

    A [const GLchar *] is the list of the bytes that can be read from it (the
    null pointer: no byte). *)

(** [strlen]: undefined when no terminator is found among the readable bytes. *)
Fixpoint strlen (s : list byte) : option Z :=
  match s with
  | [] => None
  | b :: rest =>
      if Byte.eqb b x00 then Some 0
      else match strlen rest with Some n => Some (n + 1) | None => None end
  end.

(** The [n] bytes a [memcpy] reads from [src]. *)
Definition memcpy_read {A} (src : list A) (n : Z) : option (list A) :=
  if (0 <=? n) && (n <=? Z.of_nat (length src))
  then Some (firstn (Z.to_nat n) src) else None.

(** [memcpy(&dst[off], data, |data|)]: undefined outside [dst]. *)
Definition memcpy_write (dst : list cell) (off : Z) (data : list cell)
  : option (list cell) :=
  if (0 <=? off) && (off + Z.of_nat (length data) <=? Z.of_nat (length dst))
  then Some (firstn (Z.to_nat off) dst ++ data
             ++ skipn (Z.to_nat off + length data) dst)
  else None.

(** [new char[n]] *)
Definition new_char (n : Z) : list cell := repeat None (Z.to_nat n).

(** [for (GLsizei i = 0; i < count; ++i) body], with the locals the body
    updates passed along. *)
Fixpoint for_ {S A} (n : nat) (i : nat) (body : nat -> A -> M S A) (a : A) : M S A :=
  match n with
  | O => ret a
  | Datatypes.S n' => a' <- body i a ;; for_ n' (Datatypes.S i) body a'
  end.

(** [void Shader::FreeSources(void)] *)
Definition FreeSources : M Shader unit :=
  this <- get ;;
  match mSource this with
  | Some _ => modify (set_mSource None) ;; modify (set_mSourceLength 0)
  | None => ret tt
  end.

(** First loop of [SetShaderSource]: [sourceLengths[i]] and the running total. *)
Definition count_length (source : list (list byte)) (length : option (list Z))
                        (i : nat) (sourceLengths : list Z) : M Shader (list Z) :=
  l <- match length with
       | None =>
           s <- defined (nth_error source i) ;;
           n <- defined (strlen s) ;;
           ret (u32 n)
       | Some length =>
           li <- defined (nth_error length i) ;;
           if li <? 0 then
             s <- defined (nth_error source i) ;;
             n <- defined (strlen s) ;;
             ret (u32 n)
           else ret (u32 li)
       end ;;
  modify (fun this => set_mSourceLength (u32 (mSourceLength this + l)) this) ;;
  ret (sourceLengths ++ [l]).

(** Second loop: copy fragment [i] behind what was copied so far. *)
Definition copy_fragment (source : list (list byte)) (sourceLengths : list Z)
                         (i : nat) (currentLength : Z) : M Shader Z :=
  li <- defined (nth_error sourceLengths i) ;;
  if negb (li =? 0) then
    s <- defined (nth_error source i) ;;
    data <- defined (memcpy_read s li) ;;
    this <- get ;;
    buf <- defined (mSource this) ;;
    buf' <- defined (memcpy_write buf currentLength (map Some data)) ;;
    modify (set_mSource (Some buf')) ;;
    ret (u32 (currentLength + li))
  else ret currentLength.

(** [void Shader::SetShaderSource(GLsizei count, const GLchar *const *source,
    const GLint *length)].  A negative [count] makes [new uint32_t[count]]
    throw. *)
Definition SetShaderSource (cfg : BuildConfig) (count : Z)
                           (source : option (list (list byte)))
                           (length : option (list Z)) : M Shader unit :=
  FreeSources ;;
  modify (set_mCompiled false) ;;
  match source with
  | None => ret tt
  | Some source =>
      if count =? 0 then ret tt
      else if count <? 0 then abort
      else
        modify (set_mSourceLength 0) ;;
        sourceLengths <- for_ (Z.to_nat count) 0 (count_length source length) [] ;;
        this <- get ;;
        if mSourceLength this =? 0 then ret tt
        else
          modify (set_mSource (Some (new_char (u32 (mSourceLength this + 1))))) ;;
          currentLength <- for_ (Z.to_nat count) 0 (copy_fragment source sourceLengths) 0 ;;
          this <- get ;;
          assert cfg (currentLength =? mSourceLength this) ;;
          buf <- defined (mSource this) ;;
          buf' <- defined (memcpy_write buf currentLength [Some x00]) ;;
          modify (set_mSource (Some buf')) ;;
          when (GLOVE_SAVE_SHADER_SOURCES_TO_FILES cfg)
               (c <- defined (mShaderCompiler this) ;; call (EnableSaveSourceToFiles c)) ;;
          when (GLOVE_DUMP_ORIGINAL_SHADER_SOURCE cfg)
               (call (GlslPrintShaderSource (mShaderType this) (mShaderVersion this) buf'))
  end.

(** [int Shader::GetShaderSourceLength(void) const] *)
Definition GetShaderSourceLength (this : Shader) : Z :=
  to_int (if 0 <? mSourceLength this then u32 (mSourceLength this + 1) else 0).

(** [char *Shader::GetShaderSource(void) const]; the result is the content
    of the fresh buffer, [None] for [nullptr]. *)
Definition GetShaderSource : M Shader (option (list cell)) :=
  this <- get ;;
  match mSource this with
  | None => ret None
  | Some src =>
      if GetShaderSourceLength this <? 0 then abort
      else
        copy <- defined (memcpy_read src (GetShaderSourceLength this)) ;;
        ret (Some copy)
  end.

(** [void Shader::DestroyVkShader(void)] *)
Definition DestroyVkShader : M Shader unit :=
  this <- get ;;
  when (negb (mVkShaderModule this =? VK_NULL_HANDLE))
       (call (vkDestroyShaderModule (vkDevice (mVkContext this)) (mVkShaderModule this)) ;;
        modify (set_mVkShaderModule VK_NULL_HANDLE)).

Definition is_vertex_or_fragment (t : shader_type_t) : bool :=
  match t with
  | SHADER_TYPE_VERTEX | SHADER_TYPE_FRAGMENT => true
  | SHADER_TYPE_INVALID => false
  end.

(** [VkShaderModule Shader::CreateVkShaderModule(void)]; [err] and [out] are
    the answer of [vkCreateShaderModule], when it is called. *)
Definition CreateVkShaderModule (cfg : BuildConfig) (err : VkResult) (out : VkShaderModule)
  : M Shader VkShaderModule :=
  this <- get ;;
  assert cfg (is_vertex_or_fragment (mShaderType this)) ;;
  DestroyVkShader ;;
  this <- get ;;
  if Z.of_nat (length (mSpv this)) =? 0 then ret VK_NULL_HANDLE
  else
    let moduleCreateInfo :=
      {| sm_sType := VK_STRUCTURE_TYPE_SHADER_MODULE_CREATE_INFO;
         sm_flags := 0;
         codeSize := Z.of_nat (length (mSpv this)) * 4;
         pCode := mSpv this |} in
    call (vkCreateShaderModule (vkDevice (mVkContext this)) moduleCreateInfo) ;;
    modify (set_mVkShaderModule out) ;;
    if negb (err =? 0) then ret VK_NULL_HANDLE
    else this <- get ;; ret (mVkShaderModule this).

End Shader.

(** * What is observed of a call *)

Definition trace_of {A} (o : Outcome A) : Trace :=
  match o with
  | Returned _ tr | Aborted tr => tr
  | Undefined => []
  end.

(** The value a method returns, when it returns. *)
Definition result_of {A S} (o : Outcome (A * S)) : option A :=
  match o with
  | Returned (a, _) _ => Some a
  | _ => None
  end.

(** The creation requests a trace holds, oldest first. *)
Definition render_pass_requests (tr : Trace) : list VkRenderPassCreateInfo :=
  flat_map (fun e => match e with vkCreateRenderPass _ info => [info] | _ => [] end) tr.

Definition shader_module_requests (tr : Trace) : list VkShaderModuleCreateInfo :=
  flat_map (fun e => match e with vkCreateShaderModule _ info => [info] | _ => [] end) tr.

Definition is_out_of_memory (err : VkResult) : bool :=
  (err =? VK_ERROR_OUT_OF_HOST_MEMORY) || (err =? VK_ERROR_OUT_OF_DEVICE_MEMORY).

(** ** The load and store policy of an attachment, as the description reads it *)

Module RenderPassSpec.
Import RenderPass.

Definition load_policy (clear : bool) : VkAttachmentLoadOp :=
  match clear with
  | true => VK_ATTACHMENT_LOAD_OP_CLEAR
  | false => VK_ATTACHMENT_LOAD_OP_DONT_CARE
  end.

Definition store_policy (write : bool) : VkAttachmentStoreOp :=
  match write with
  | true => VK_ATTACHMENT_STORE_OP_STORE
  | false => VK_ATTACHMENT_STORE_OP_DONT_CARE
  end.

(** The trace [Create] leaves behind: the old handle destroyed, if any, then
    one creation request. *)
Definition Create_trace (cf dsf : VkFormat) (this : RenderPass) (tr : Trace) : Trace :=
  (tr ++ if mVkRenderPass this =? VK_NULL_HANDLE then []
         else [vkDestroyRenderPass (vkDevice (mVkContext this)) (mVkRenderPass this)])
  ++ [vkCreateRenderPass (vkDevice (mVkContext this)) (create_info this cf dsf)].

End RenderPassSpec.

(** ** The fragments of a [glShaderSource] call, as the description reads them *)

Module ShaderSpec.

(** The text of a null-terminated fragment: the bytes before the terminator. *)
Fixpoint c_string (s : list byte) : option (list byte) :=
  match s with
  | [] => None
  | b :: rest =>
      if Byte.eqb b x00 then Some []
      else match c_string rest with Some t => Some (b :: t) | None => None end
  end.

(** Fragment [i]: its first [length[i]] bytes when a non-negative length is
    given, else its text up to the terminator. *)
Definition fragment_text (source : list (list byte)) (length : option (list Z)) (i : nat)
  : option (list byte) :=
  match nth_error source i with
  | None => None
  | Some s =>
      match length with
      | None => c_string s
      | Some length =>
          match nth_error length i with
          | None => None
          | Some li => if li <? 0 then c_string s else Shader.memcpy_read s li
          end
      end
  end.

(** Fragments [i], [i+1], ..., [i+n-1]. *)
Fixpoint fragment_texts (n i : nat) (source : list (list byte)) (length : option (list Z))
  : option (list (list byte)) :=
  match n with
  | O => Some []
  | S n' =>
      match fragment_text source length i, fragment_texts n' (S i) source length with
      | Some t, Some ts => Some (t :: ts)
      | _, _ => None
      end
  end.

Definition bytes_of (s : String.string) : list byte := String.list_byte_of_string s.
Arguments bytes_of s%_string.

(** The byte length of the concatenation of the texts. *)
Definition total_length (texts : list (list byte)) : Z :=
  Z.of_nat (length (concat texts)).

(** The object after [FreeSources]. *)
Definition free_sources (this : Shader.Shader) : Shader.Shader :=
  match Shader.mSource this with
  | Some _ => Shader.set_mSourceLength 0 (Shader.set_mSource None this)
  | None => this
  end.

(** The diagnostic side channel at the end of [SetShaderSource]. *)
Definition diagnostics (cfg : BuildConfig) (this : Shader.Shader) (buf : list cell) : Trace :=
  (if GLOVE_SAVE_SHADER_SOURCES_TO_FILES cfg
   then match Shader.mShaderCompiler this with
        | Some c => [EnableSaveSourceToFiles c]
        | None => []
        end
   else [])
  ++ (if GLOVE_DUMP_ORIGINAL_SHADER_SOURCE cfg
      then [GlslPrintShaderSource (Shader.mShaderType this) (Shader.mShaderVersion this) buf]
      else []).

(** A call whose arguments can be read as the GL call requires: no source
    array, or no fragment, or [count] fragments that are each readable (a
    terminator where one is looked for, [length[i]] bytes otherwise), of a
    total length that fits an [int] with its terminator, and a compiler
    attached when the sources are to be saved to files. *)
Definition readable_call (cfg : BuildConfig) (count : Z)
                         (source : option (list (list byte))) (length : option (list Z))
                         (this : Shader.Shader) : bool :=
  match source with
  | None => true
  | Some src =>
      (count =? 0)
      || ((0 <? count)
          && match fragment_texts (Z.to_nat count) 0 src length with
             | Some texts =>
                 (total_length texts + 1 <? 2 ^ 31)
                 && (negb (GLOVE_SAVE_SHADER_SOURCES_TO_FILES cfg)
                     || (total_length texts =? 0)
                     || match Shader.mShaderCompiler this with
                        | Some _ => true
                        | None => false
                        end)
             | None => false
             end)
  end.

(** What [GetShaderSource] and [GetShaderSourceLength] answer right after a
    [SetShaderSource], when all of them return. *)
Definition source_after (cfg : BuildConfig) (count : Z)
                        (source : option (list (list byte))) (length : option (list Z))
                        (this : Shader.Shader) : option (option (list cell) * Z) :=
  match Shader.SetShaderSource cfg count source length this [] with
  | Returned (_, this') tr' =>
      match Shader.GetShaderSource this' tr' with
      | Returned (p, _) _ => Some (p, Shader.GetShaderSourceLength this')
      | _ => None
      end
  | _ => None
  end.

(** The members [SetShaderSource] is said to discard. *)
Definition linkage_kept (s s' : Shader.Shader) : Prop :=
  Shader.mSpv s' = Shader.mSpv s
  /\ Shader.mVkShaderModule s' = Shader.mVkShaderModule s
  /\ Shader.mCompiled s' = Shader.mCompiled s.

(** A computation that, when it returns, has kept them. *)
Definition keeps {A} (m : M Shader.Shader A) : Prop :=
  forall s tr a s' tr', m s tr = Returned (a, s') tr' -> linkage_kept s s'.

End ShaderSpec.

(** * The life of a render pass, as its owner sees it on the trace *)

Module RenderPassLife.
Import RenderPass RenderPassOps.

(** [RenderPass::~RenderPass()] *)
Definition destructor : M RenderPass unit := Release.

(** The handles a trace hands back to the driver, oldest first. *)
Definition destroyed_render_passes (tr : Trace) : list VkRenderPass :=
  flat_map (fun e => match e with vkDestroyRenderPass _ h => [h] | _ => [] end) tr.

(** The scopes a trace opens, with their subpass contents, and the number of
    scopes it closes. *)
Definition begin_requests (tr : Trace) : list (VkRenderPassBeginInfo * VkSubpassContents) :=
  flat_map (fun e => match e with
                     | vkCmdBeginRenderPass _ info contents => [(info, contents)]
                     | _ => []
                     end) tr.

Definition scope_exits (tr : Trace) : nat :=
  length (flat_map (fun e => match e with vkCmdEndRenderPass _ => [tt] | _ => [] end) tr).

(** The handle an object holds, if any. *)
Definition held (this : RenderPass) : list VkRenderPass :=
  if mVkRenderPass this =? VK_NULL_HANDLE then [] else [mVkRenderPass this].

(** The handles the driver gave out in answer to the [Create]s of a sequence. *)
Fixpoint obtained (ops : list Op) : list VkRenderPass :=
  match ops with
  | [] => []
  | OpCreate _ _ _ out :: rest =>
      (if out =? VK_NULL_HANDLE then [] else [out]) ++ obtained rest
  | _ :: rest => obtained rest
  end.

(** The members no method writes. *)
Definition configuration (this : RenderPass)
  : vkContext_t * VkSubpassContents * VkPipelineBindPoint
    * (bool * bool * bool) * (bool * bool * bool) :=
  (mVkContext this, mVkSubpassContents this, mVkPipelineBindPoint this,
   (mColorClearEnabled this, mDepthClearEnabled this, mStencilClearEnabled this),
   (mColorWriteEnabled this, mDepthWriteEnabled this, mStencilWriteEnabled this)).

(** How many of the two formats are defined. *)
Definition defined_formats (colorFormat depthstencilFormat : VkFormat) : Z :=
  (if colorFormat =? VK_FORMAT_UNDEFINED then 0 else 1)
  + (if depthstencilFormat =? VK_FORMAT_UNDEFINED then 0 else 1).

(** A reference of a subpass that points into the attachments of its render
    pass, at a description of the given format whose final layout is the
    layout of the reference. *)
Definition refers_to (info : VkRenderPassCreateInfo) (r : VkAttachmentReference)
                     (fmt : VkFormat) : Prop :=
  0 <= attachment r < attachmentCount info
  /\ exists a, nth_error (pAttachments info) (Z.to_nat (attachment r)) = Some a
               /\ format a = fmt /\ finalLayout a = layout r.

(** A life used to exercise the theorems: a colour-only pass, one scope and
    an unmatched [End], then a re-creation with depth/stencil and a scope
    left open. *)
Definition sample_life : list Op :=
  [OpCreate VK_FORMAT_R8G8B8A8_UNORM VK_FORMAT_UNDEFINED VK_SUCCESS 7;
   OpBegin 1 1 {| offset_x := 0; offset_y := 0; extent_w := 4; extent_h := 4 |}
           (0, 0, 0, 0) 0 0;
   OpEnd 1;
   OpEnd 1;
   OpCreate VK_FORMAT_R8G8B8A8_UNORM VK_FORMAT_D24_UNORM_S8_UINT VK_SUCCESS 8;
   OpBegin 1 1 {| offset_x := 0; offset_y := 0; extent_w := 4; extent_h := 4 |}
           (0, 0, 0, 0) 0 0].

End RenderPassLife.

(** * The other methods of Shader, and the life of a shader *)

Module ShaderLife.
Import Shader.

(** [Shader::~Shader()] *)
Definition destructor : M Shader unit :=
  FreeSources ;;
  DestroyVkShader.

(** [buf[i]]: undefined outside the buffer and on a cell never written. *)
Definition read_cell (buf : list cell) (i : Z) : option byte :=
  if i <? 0 then None
  else match nth_error buf (Z.to_nat i) with
       | Some (Some b) => Some b
       | _ => None
       end.

(** The compiler is not part of this code.  What its
    [GetShaderInfoLog(mShaderType, mShaderVersion)] answers is an argument
    [infoLog] of the two methods that ask for it ([None]: the null pointer;
    the same answer at both calls a method makes), and its verdict on a
    compilation is an argument of [CompileShader]. *)

(** [int Shader::GetInfoLogLength(void) const] *)
Definition GetInfoLogLength (infoLog : option (list byte)) : M Shader Z :=
  this <- get ;;
  _ <- defined (mShaderCompiler this) ;;
  match infoLog with
  | Some text => n <- defined (strlen text) ;; ret (to_int n)
  | None => ret 0
  end.

(** [char *Shader::GetInfoLog(void) const]; the result is the content of
    the buffer returned, [None] for [nullptr]. *)
Definition GetInfoLog (infoLog : option (list byte)) : M Shader (option (list cell)) :=
  this <- get ;;
  match mShaderCompiler this with
  | Some _ =>
      text <- defined infoLog ;;
      n <- defined (strlen text) ;;
      let len := u32 (n + 1) in
      let log := new_char len in
      data <- defined (memcpy_read text len) ;;
      log <- defined (memcpy_write log 0 (map Some data)) ;;
      last <- defined (read_cell log (u32 (len - 1))) ;;
      if negb (Byte.eqb last x00) then
        log <- defined (memcpy_write log len [Some x00]) ;;
        ret (Some log)
      else ret (Some log)
  | None => ret None
  end.

(** [bool Shader::CompileShader(void)] *)
Definition CompileShader (verdict : bool) : M Shader bool :=
  this <- get ;;
  _ <- defined (mShaderCompiler this) ;;
  modify (set_mCompiled verdict) ;;
  this <- get ;;
  ret (mCompiled this).

(** ** Sequences of calls *)

Inductive Op :=
| OpSetShaderSource (count : Z) (source : option (list (list byte)))
                    (length : option (list Z))
| OpCompileShader (verdict : bool)
| OpCreateVkShaderModule (err : VkResult) (out : VkShaderModule)
| OpDestroyVkShader
| OpGetShaderSource
| OpGetInfoLog (infoLog : option (list byte)).

Definition exec (cfg : BuildConfig) (op : Op) : M Shader unit :=
  match op with
  | OpSetShaderSource count source length => SetShaderSource cfg count source length
  | OpCompileShader verdict => _ <- CompileShader verdict ;; ret tt
  | OpCreateVkShaderModule err out => _ <- CreateVkShaderModule cfg err out ;; ret tt
  | OpDestroyVkShader => DestroyVkShader
  | OpGetShaderSource => _ <- GetShaderSource ;; ret tt
  | OpGetInfoLog infoLog => _ <- GetInfoLog infoLog ;; ret tt
  end.

Fixpoint run (cfg : BuildConfig) (ops : list Op) : M Shader unit :=
  match ops with
  | [] => ret tt
  | op :: rest => exec cfg op ;; run cfg rest
  end.

(** The value [mCompiled] should have after a sequence: what the last
    compilation said, unless a source was set since. *)
Fixpoint compiled_after (ops : list Op) (compiled : bool) : bool :=
  match ops with
  | [] => compiled
  | OpSetShaderSource _ _ _ :: rest => compiled_after rest false
  | OpCompileShader verdict :: rest => compiled_after rest verdict
  | _ :: rest => compiled_after rest compiled
  end.

(** The stored source is either absent, with length 0, or a buffer that
    holds a non-empty text of [mSourceLength] bytes and its terminator, all
    written, of a size that fits an [int]. *)
Definition source_ok (this : Shader) : Prop :=
  match mSource this with
  | None => mSourceLength this = 0
  | Some buf =>
      exists text : list byte,
        buf = map Some (text ++ [x00])
        /\ mSourceLength this = Z.of_nat (List.length text)
        /\ 0 < mSourceLength this
        /\ mSourceLength this + 1 < 2 ^ 31
  end.

(** Every [SetShaderSource] of the sequence has readable arguments. *)
Fixpoint readable_run (cfg : BuildConfig) (ops : list Op) (this : Shader) : bool :=
  match ops with
  | [] => true
  | OpSetShaderSource count source length :: rest =>
      ShaderSpec.readable_call cfg count source length this && readable_run cfg rest this
  | _ :: rest => readable_run cfg rest this
  end.

(** The modules a trace hands back to the driver, the module an object
    holds, and the modules the driver gave out in answer to the creations of
    a sequence (none is asked for while the binary is empty). *)
Definition destroyed_shader_modules (tr : Trace) : list VkShaderModule :=
  flat_map (fun e => match e with vkDestroyShaderModule _ h => [h] | _ => [] end) tr.

Definition held (this : Shader) : list VkShaderModule :=
  if mVkShaderModule this =? VK_NULL_HANDLE then [] else [mVkShaderModule this].

Fixpoint obtained (binary : list Z) (ops : list Op) : list VkShaderModule :=
  match ops with
  | [] => []
  | OpCreateVkShaderModule _ out :: rest =>
      match binary with
      | [] => []
      | _ :: _ => if out =? VK_NULL_HANDLE then [] else [out]
      end ++ obtained binary rest
  | _ :: rest => obtained binary rest
  end.

(** A computation that, whenever it returns, has taken object and trace
    from one side of a relation to the other. *)
Definition frames {A} (R : Shader -> Trace -> Shader -> Trace -> Prop)
                  (m : M Shader A) : Prop :=
  forall s tr a s' tr', m s tr = Returned (a, s') tr' -> R s tr s' tr'.

(** Nothing changed. *)
Definition unchanged (s : Shader) (tr : Trace) (s' : Shader) (tr' : Trace) : Prop :=
  s' = s /\ tr' = tr.

(** Only the source and the compiled flag may have changed, and the driver
    was not called. *)
Definition source_only (s : Shader) (tr : Trace) (s' : Shader) (tr' : Trace) : Prop :=
  mVkContext s' = mVkContext s
  /\ mVkShaderModule s' = mVkShaderModule s
  /\ mShaderCompiler s' = mShaderCompiler s
  /\ mSpv s' = mSpv s
  /\ mShaderType s' = mShaderType s
  /\ mShaderVersion s' = mShaderVersion s
  /\ destroyed_shader_modules tr' = destroyed_shader_modules tr
  /\ shader_module_requests tr' = shader_module_requests tr.

(** The request [CreateVkShaderModule] makes for a binary. *)
Definition module_request (binary : list Z) : VkShaderModuleCreateInfo :=
  {| sm_sType := VK_STRUCTURE_TYPE_SHADER_MODULE_CREATE_INFO;
     sm_flags := 0;
     codeSize := Z.of_nat (length binary) * 4;
     pCode := binary |}.

(** The object with a new source, a new stored length and the flag cleared. *)
Definition with_source (p : option (list cell)) (n : Z) (this : Shader) : Shader :=
  set_mSource p (set_mSourceLength n (set_mCompiled false this)).

(** The source and the length a call of [SetShaderSource] with readable
    arguments should store: nothing for a null array, a count of 0 or an
    empty concatenation, else the concatenation and its terminator. *)
Definition stored_source (count : Z) (source : option (list (list byte)))
                         (length : option (list Z)) : option (list cell) * Z :=
  match source with
  | None => (None, 0)
  | Some src =>
      if count =? 0 then (None, 0)
      else match ShaderSpec.fragment_texts (Z.to_nat count) 0 src length with
           | Some texts =>
               if ShaderSpec.total_length texts =? 0 then (None, 0)
               else (Some (map Some (concat texts ++ [x00])), ShaderSpec.total_length texts)
           | None => (None, 0)
           end
  end.

(** A shader set up by its owner: a compiler, a stage, a binary. *)
Definition vertex_shader : Shader :=
  {| mVkContext := {| vkDevice := 1 |};
     mVkShaderModule := VK_NULL_HANDLE;
     mShaderCompiler := Some 0%nat;
     mSpv := [119734787; 65536];
     mSource := None;
     mSourceLength := 0;
     mShaderType := SHADER_TYPE_VERTEX;
     mShaderVersion := ESSL_VERSION_100;
     mCompiled := false |}.

Definition sample_life : list Op :=
  [OpSetShaderSource 1 (Some [ShaderSpec.bytes_of "void main() {}" ++ [x00]]) None;
   OpCompileShader true;
   OpCreateVkShaderModule VK_SUCCESS 5;
   OpGetShaderSource;
   OpCreateVkShaderModule VK_SUCCESS 6;
   OpSetShaderSource 0 None None;
   OpGetInfoLog (Some (ShaderSpec.bytes_of "ok" ++ [x00]))].

End ShaderLife.

(** * Inputs used in examples and counterexamples *)

Module Examples.

(** Arguments of a [Begin]: a 4x4 area, everything cleared to zero. *)
Definition area : VkRect2D :=
  {| offset_x := 0; offset_y := 0; extent_w := 4; extent_h := 4 |}.

Definition device : vkContext_t := {| vkDevice := 1 |}.

(** The two fragments of the scenario of the description, as C strings. *)
Definition void_main_fragments : list (list byte) :=
  [ShaderSpec.bytes_of "void main() {" ++ [x00]; ShaderSpec.bytes_of "}" ++ [x00]].

(** A render pass that clears colour and stencil, and keeps depth only. *)
Definition clear_color_and_stencil : RenderPass.RenderPass :=
  {| RenderPass.mVkContext := {| vkDevice := 1 |};
     RenderPass.mVkSubpassContents := VK_SUBPASS_CONTENTS_SECONDARY_COMMAND_BUFFERS;
     RenderPass.mVkPipelineBindPoint := VK_PIPELINE_BIND_POINT_GRAPHICS;
     RenderPass.mVkRenderPass := VK_NULL_HANDLE;
     RenderPass.mColorClearEnabled := true;
     RenderPass.mDepthClearEnabled := false;
     RenderPass.mStencilClearEnabled := true;
     RenderPass.mColorWriteEnabled := false;
     RenderPass.mDepthWriteEnabled := true;
     RenderPass.mStencilWriteEnabled := false;
     RenderPass.mStarted := false |}.

(** A shader that was given a binary but no stage. *)
Definition stageless_shader : Shader.Shader :=
  {| Shader.mVkContext := {| vkDevice := 1 |};
     Shader.mVkShaderModule := VK_NULL_HANDLE;
     Shader.mShaderCompiler := Some 0%nat;
     Shader.mSpv := [119734787; 65536];
     Shader.mSource := None;
     Shader.mSourceLength := 0;
     Shader.mShaderType := SHADER_TYPE_INVALID;
     Shader.mShaderVersion := ESSL_VERSION_100;
     Shader.mCompiled := true |}.

(** A shader that was compiled and holds a module. *)
Definition compiled_shader : Shader.Shader :=
  {| Shader.mVkContext := {| vkDevice := 1 |};
     Shader.mVkShaderModule := 5;
     Shader.mShaderCompiler := Some 0%nat;
     Shader.mSpv := [119734787; 65536];
     Shader.mSource := Some (map Some (ShaderSpec.bytes_of "void main() {}" ++ [x00]));
     Shader.mSourceLength := 14;
     Shader.mShaderType := SHADER_TYPE_VERTEX;
     Shader.mShaderVersion := ESSL_VERSION_100;
     Shader.mCompiled := true |}.

End Examples.

(** * Properties of RenderPass *)

Module RenderPassFacts.
Import RenderPass RenderPassOps RenderPassSpec Examples.

(** What each method does, in closed form. *)

Lemma Release_eq (this : RenderPass) (tr : Trace) :
  Release this tr =
    if mVkRenderPass this =? VK_NULL_HANDLE then Returned (tt, this) tr
    else Returned (tt, set_mVkRenderPass VK_NULL_HANDLE this)
                  (tr ++ [vkDestroyRenderPass (vkDevice (mVkContext this)) (mVkRenderPass this)]).
Proof.
  unfold Release, bind, get, when.
  destruct (mVkRenderPass this =? VK_NULL_HANDLE); reflexivity.
Qed.

Lemma Create_eq cfg cf dsf err out this tr :
  Create cfg cf dsf err out this tr =
    if NDEBUG cfg || (err =? 0)
    then Returned (negb (is_out_of_memory err), set_mVkRenderPass out this)
                  (Create_trace cf dsf this tr)
    else Aborted (Create_trace cf dsf this tr).
Proof.
  unfold Create, Create_trace, bind. rewrite Release_eq.
  unfold get, call, modify, assert, ret, abort, is_out_of_memory.
  destruct (mVkRenderPass this =? VK_NULL_HANDLE) eqn:Hh;
    destruct (NDEBUG cfg); destruct (err =? 0) eqn:He; cbn;
    rewrite ?app_nil_r, ?negb_orb; try reflexivity.
Qed.

Lemma Begin_eq cb fb rect col d s this tr :
  exists info,
    Begin cb fb rect col d s this tr =
      Returned (tt, set_mStarted true this)
               (tr ++ [vkCmdBeginRenderPass cb info (mVkSubpassContents this)])
    /\ renderPass info = mVkRenderPass this
    /\ length (pClearValues info) = 2%nat.
Proof.
  destruct col as [[[c0 c1] c2] c3].
  eexists. unfold Begin, bind, get, call, modify. cbn.
  repeat split.
Qed.

Lemma End_eq cb this tr :
  End cb this tr =
    if mStarted this
    then Returned (tt, set_mStarted false this) (tr ++ [vkCmdEndRenderPass cb])
    else Returned (tt, this) tr.
Proof.
  unfold End, bind, get, when. destruct (mStarted this); reflexivity.
Qed.

(** The requests of a trace, piecewise. *)
Lemma render_pass_requests_app tr1 tr2 :
  render_pass_requests (tr1 ++ tr2) = render_pass_requests tr1 ++ render_pass_requests tr2.
Proof. unfold render_pass_requests. apply flat_map_app. Qed.

Lemma Create_requests cfg cf dsf err out this :
  render_pass_requests (trace_of (Create cfg cf dsf err out this []))
  = [create_info this cf dsf].
Proof.
  rewrite Create_eq.
  assert (H : render_pass_requests (Create_trace cf dsf this []) = [create_info this cf dsf]).
  { unfold Create_trace. rewrite render_pass_requests_app.
    destruct (mVkRenderPass this =? VK_NULL_HANDLE); reflexivity. }
  destruct (NDEBUG cfg || (err =? 0)); exact H.
Qed.

Lemma defined_format (f : VkFormat) :
  f <> VK_FORMAT_UNDEFINED -> negb (f =? VK_FORMAT_UNDEFINED) = true.
Proof. intro H. apply negb_true_iff, Z.eqb_neq, H. Qed.

(** The attachments of a request, by which formats are defined. *)
Lemma create_info_attachments this cf dsf :
  pAttachments (create_info this cf dsf)
  = (if cf =? VK_FORMAT_UNDEFINED then [] else [attachmentColor this cf])
    ++ (if dsf =? VK_FORMAT_UNDEFINED then [] else [attachmentDepthStencil this dsf]).
Proof.
  unfold create_info.
  destruct (cf =? VK_FORMAT_UNDEFINED), (dsf =? VK_FORMAT_UNDEFINED); reflexivity.
Qed.

Lemma create_info_subpasses this cf dsf :
  exists sp,
    pSubpasses (create_info this cf dsf) = [sp]
    /\ subpassCount (create_info this cf dsf) = 1
    /\ dependencyCount (create_info this cf dsf) = 0
    /\ attachmentCount (create_info this cf dsf)
       = Z.of_nat (length (pAttachments (create_info this cf dsf)))
    /\ colorAttachmentCount sp = (if cf =? VK_FORMAT_UNDEFINED then 0 else 1)
    /\ pColorAttachments sp
       = (if cf =? VK_FORMAT_UNDEFINED then None
          else Some {| attachment := 0;
                       layout := VK_IMAGE_LAYOUT_COLOR_ATTACHMENT_OPTIMAL |})
    /\ pDepthStencilAttachment sp
       = (if dsf =? VK_FORMAT_UNDEFINED then None
          else Some {| attachment := if cf =? VK_FORMAT_UNDEFINED then 0 else 1;
                       layout := VK_IMAGE_LAYOUT_DEPTH_STENCIL_ATTACHMENT_OPTIMAL |})
    /\ inputAttachmentCount sp = 0 /\ pInputAttachments sp = None
    /\ preserveAttachmentCount sp = 0 /\ pPreserveAttachments sp = None
    /\ pResolveAttachments sp = None.
Proof.
  unfold create_info.
  destruct (cf =? VK_FORMAT_UNDEFINED), (dsf =? VK_FORMAT_UNDEFINED);
    cbn; eexists; repeat split.
Qed.

(** C10. A freshly constructed render pass has the three clear flags off,
    colour and depth writes on, stencil write off, secondary command buffers
    as subpass contents, no native handle, and is not started; a [Create]
    issued on it therefore requests, for whichever attachment its formats
    define, load DONT_CARE and store STORE for colour and depth, and
    DONT_CARE for both stencil operations. *)
Theorem new_defaults (vkContext : vkContext_t) :
  let this := new vkContext in
  (mColorClearEnabled this = false /\ mDepthClearEnabled this = false
   /\ mStencilClearEnabled this = false)
  /\ (mColorWriteEnabled this = true /\ mDepthWriteEnabled this = true
      /\ mStencilWriteEnabled this = false)
  /\ mVkSubpassContents this = VK_SUBPASS_CONTENTS_SECONDARY_COMMAND_BUFFERS
  /\ mVkRenderPass this = VK_NULL_HANDLE
  /\ mStarted this = false
  /\ forall cfg cf dsf err out,
       exists info color ds,
         render_pass_requests (trace_of (Create cfg cf dsf err out this [])) = [info]
         /\ pAttachments info
            = (if cf =? VK_FORMAT_UNDEFINED then [] else [color])
              ++ (if dsf =? VK_FORMAT_UNDEFINED then [] else [ds])
         /\ loadOp color = VK_ATTACHMENT_LOAD_OP_DONT_CARE
         /\ storeOp color = VK_ATTACHMENT_STORE_OP_STORE
         /\ loadOp ds = VK_ATTACHMENT_LOAD_OP_DONT_CARE
         /\ storeOp ds = VK_ATTACHMENT_STORE_OP_STORE
         /\ stencilLoadOp ds = VK_ATTACHMENT_LOAD_OP_DONT_CARE
         /\ stencilStoreOp ds = VK_ATTACHMENT_STORE_OP_DONT_CARE.
Proof.
  cbv zeta. repeat (split; [ try repeat split; reflexivity | ]).
  intros cfg cf dsf err out.
  exists (create_info (new vkContext) cf dsf),
         (attachmentColor (new vkContext) cf),
         (attachmentDepthStencil (new vkContext) dsf).
  split; [ apply Create_requests | ].
  split; [ apply create_info_attachments | ].
  repeat split.
Qed.

(** C5. Whatever the six flags, with both formats defined each attachment
    description requested by [Create] has load CLEAR when the clear flag of
    its channel is set and DONT_CARE otherwise, and store STORE when the
    write flag of its channel is set and DONT_CARE otherwise; the stencil
    operations of the depth/stencil attachment follow the stencil flags
    alone, and those of the colour attachment are DONT_CARE. *)
Theorem Create_load_store_policy cfg (this : RenderPass) cf dsf err out :
  cf <> VK_FORMAT_UNDEFINED -> dsf <> VK_FORMAT_UNDEFINED ->
  exists info color ds,
    render_pass_requests (trace_of (Create cfg cf dsf err out this [])) = [info]
    /\ pAttachments info = [color; ds]
    /\ loadOp color = load_policy (mColorClearEnabled this)
    /\ storeOp color = store_policy (mColorWriteEnabled this)
    /\ stencilLoadOp color = VK_ATTACHMENT_LOAD_OP_DONT_CARE
    /\ stencilStoreOp color = VK_ATTACHMENT_STORE_OP_DONT_CARE
    /\ loadOp ds = load_policy (mDepthClearEnabled this)
    /\ storeOp ds = store_policy (mDepthWriteEnabled this)
    /\ stencilLoadOp ds = load_policy (mStencilClearEnabled this)
    /\ stencilStoreOp ds = store_policy (mStencilWriteEnabled this).
Proof.
  intros Hc Hd.
  exists (create_info this cf dsf), (attachmentColor this cf),
         (attachmentDepthStencil this dsf).
  split; [ apply Create_requests | ].
  split.
  - rewrite create_info_attachments.
    apply Z.eqb_neq in Hc, Hd. rewrite Hc, Hd. reflexivity.
  - unfold load_policy, store_policy; cbn.
    destruct (mColorClearEnabled this), (mColorWriteEnabled this),
             (mDepthClearEnabled this), (mDepthWriteEnabled this),
             (mStencilClearEnabled this), (mStencilWriteEnabled this);
      repeat split.
Qed.

(** The policy at a render pass that clears colour and stencil and writes
    depth only. *)
Lemma Create_load_store_policy_witness :
  exists info color ds,
    render_pass_requests
      (trace_of (Create debug_build VK_FORMAT_R8G8B8A8_UNORM VK_FORMAT_D24_UNORM_S8_UINT
                        VK_SUCCESS 7 clear_color_and_stencil [])) = [info]
    /\ pAttachments info = [color; ds]
    /\ loadOp color = VK_ATTACHMENT_LOAD_OP_CLEAR
    /\ storeOp color = VK_ATTACHMENT_STORE_OP_DONT_CARE
    /\ stencilLoadOp color = VK_ATTACHMENT_LOAD_OP_DONT_CARE
    /\ stencilStoreOp color = VK_ATTACHMENT_STORE_OP_DONT_CARE
    /\ loadOp ds = VK_ATTACHMENT_LOAD_OP_DONT_CARE
    /\ storeOp ds = VK_ATTACHMENT_STORE_OP_STORE
    /\ stencilLoadOp ds = VK_ATTACHMENT_LOAD_OP_CLEAR
    /\ stencilStoreOp ds = VK_ATTACHMENT_STORE_OP_DONT_CARE.
Proof.
  apply (Create_load_store_policy debug_build clear_color_and_stencil
           VK_FORMAT_R8G8B8A8_UNORM VK_FORMAT_D24_UNORM_S8_UINT VK_SUCCESS 7);
    discriminate.
Defined.

(** C6. [Create] requests one render pass with exactly one subpass.  With
    only the colour format defined it has exactly one attachment, the colour
    one, referenced at index 0 as the colour output, and no depth/stencil
    reference; with only the depth/stencil format defined it has exactly one
    attachment, referenced at index 0 as the depth/stencil output, and no
    colour reference; with both defined it has exactly two attachments,
    colour at index 0 and depth/stencil at index 1. *)
Theorem Create_attachment_list cfg (this : RenderPass) cf dsf err out :
  exists info sp,
    render_pass_requests (trace_of (Create cfg cf dsf err out this [])) = [info]
    /\ subpassCount info = 1 /\ pSubpasses info = [sp]
    /\ attachmentCount info = Z.of_nat (length (pAttachments info))
    /\ (cf <> VK_FORMAT_UNDEFINED -> dsf = VK_FORMAT_UNDEFINED ->
        pAttachments info = [attachmentColor this cf]
        /\ colorAttachmentCount sp = 1
        /\ pColorAttachments sp
           = Some {| attachment := 0; layout := VK_IMAGE_LAYOUT_COLOR_ATTACHMENT_OPTIMAL |}
        /\ pDepthStencilAttachment sp = None)
    /\ (cf = VK_FORMAT_UNDEFINED -> dsf <> VK_FORMAT_UNDEFINED ->
        pAttachments info = [attachmentDepthStencil this dsf]
        /\ colorAttachmentCount sp = 0
        /\ pColorAttachments sp = None
        /\ pDepthStencilAttachment sp
           = Some {| attachment := 0;
                     layout := VK_IMAGE_LAYOUT_DEPTH_STENCIL_ATTACHMENT_OPTIMAL |})
    /\ (cf <> VK_FORMAT_UNDEFINED -> dsf <> VK_FORMAT_UNDEFINED ->
        pAttachments info = [attachmentColor this cf; attachmentDepthStencil this dsf]
        /\ colorAttachmentCount sp = 1
        /\ pColorAttachments sp
           = Some {| attachment := 0; layout := VK_IMAGE_LAYOUT_COLOR_ATTACHMENT_OPTIMAL |}
        /\ pDepthStencilAttachment sp
           = Some {| attachment := 1;
                     layout := VK_IMAGE_LAYOUT_DEPTH_STENCIL_ATTACHMENT_OPTIMAL |}).
Proof.
  destruct (create_info_subpasses this cf dsf)
    as (sp & Hsp & Hn & _ & Hcount & Hcc & Hcol & Hds & _).
  exists (create_info this cf dsf), sp.
  split; [ apply Create_requests | ].
  do 3 (split; [ assumption | ]).
  rewrite create_info_attachments, Hcc, Hcol, Hds.
  split; [ | split ]; intros H1 H2;
    repeat match goal with
           | H : _ <> VK_FORMAT_UNDEFINED |- _ => apply Z.eqb_neq in H; rewrite H
           | H : _ = VK_FORMAT_UNDEFINED |- _ => rewrite H; clear H
           end;
    repeat split.
Qed.

(** The scenario of the description: RGBA8 colour only, cleared and written. *)
Example Create_color_only_scenario :
  let this :=
    {| mVkContext := {| vkDevice := 1 |};
       mVkSubpassContents := VK_SUBPASS_CONTENTS_SECONDARY_COMMAND_BUFFERS;
       mVkPipelineBindPoint := VK_PIPELINE_BIND_POINT_GRAPHICS;
       mVkRenderPass := VK_NULL_HANDLE;
       mColorClearEnabled := true; mDepthClearEnabled := false;
       mStencilClearEnabled := false;
       mColorWriteEnabled := true; mDepthWriteEnabled := true;
       mStencilWriteEnabled := false;
       mStarted := false |} in
  map (fun info => map (fun a => (loadOp a, storeOp a, finalLayout a)) (pAttachments info))
      (render_pass_requests
         (trace_of (Create debug_build VK_FORMAT_R8G8B8A8_UNORM VK_FORMAT_UNDEFINED
                           VK_SUCCESS 7 this [])))
  = [[(VK_ATTACHMENT_LOAD_OP_CLEAR, VK_ATTACHMENT_STORE_OP_STORE,
       VK_IMAGE_LAYOUT_COLOR_ATTACHMENT_OPTIMAL)]].
Proof. reflexivity. Qed.

(** ** The result of [Create] *)

(** C4, as stated, fails where assertions are compiled in: an out-of-memory
    answer of the driver does not make [Create] return false, the assertion
    [assert(!err)] stops the process before the [return]. *)
Lemma Create_out_of_memory_asserts :
  is_out_of_memory VK_ERROR_OUT_OF_HOST_MEMORY = true
  /\ NDEBUG debug_build = false
  /\ result_of (Create debug_build VK_FORMAT_R8G8B8A8_UNORM VK_FORMAT_UNDEFINED
                       VK_ERROR_OUT_OF_HOST_MEMORY VK_NULL_HANDLE
                       (new device) [])
     <> Some false
  /\ Create debug_build VK_FORMAT_R8G8B8A8_UNORM VK_FORMAT_UNDEFINED
            VK_ERROR_OUT_OF_HOST_MEMORY VK_NULL_HANDLE (new device) []
     = Aborted [vkCreateRenderPass 1
                  (create_info (new device)
                               VK_FORMAT_R8G8B8A8_UNORM VK_FORMAT_UNDEFINED)].
Proof. repeat split. cbn. discriminate. Qed.

(** C4, amended.  Whenever [Create] returns, it returns false exactly when
    the driver reported host or device out-of-memory, and true for every
    other result code.  With assertions compiled out ([NDEBUG]) it returns
    for every result code; with assertions compiled in it returns (true) on
    success only and the process is aborted on every other result code,
    out-of-memory included. *)
Theorem Create_result cfg cf dsf (err : VkResult) out this tr :
  let o := Create cfg cf dsf err out this tr in
  (forall b, result_of o = Some b -> (b = false <-> is_out_of_memory err = true))
  /\ (NDEBUG cfg = true -> result_of o = Some (negb (is_out_of_memory err)))
  /\ (NDEBUG cfg = false ->
      (err = VK_SUCCESS -> result_of o = Some true)
      /\ (err <> VK_SUCCESS -> exists tr', o = Aborted tr')).
Proof.
  cbv zeta. rewrite Create_eq. split; [ | split ].
  - intros b. destruct (NDEBUG cfg || (err =? 0)); cbn; [ | discriminate ].
    intros [= <-]. destruct (is_out_of_memory err); cbn; intuition congruence.
  - intros ->. reflexivity.
  - intros ->. unfold VK_SUCCESS. cbn [orb]. split.
    + intros ->. reflexivity.
    + intros Hne. apply Z.eqb_neq in Hne. rewrite Hne. eexists; reflexivity.
Qed.

(** A lost device: reported as success to the caller where assertions are
    compiled out, fatal where they are compiled in. *)
Example Create_device_lost :
  result_of (Create release_build VK_FORMAT_R8G8B8A8_UNORM VK_FORMAT_D24_UNORM_S8_UINT
                    VK_ERROR_DEVICE_LOST VK_NULL_HANDLE (new device) []) = Some true
  /\ result_of (Create release_build VK_FORMAT_R8G8B8A8_UNORM VK_FORMAT_D24_UNORM_S8_UINT
                       VK_ERROR_OUT_OF_DEVICE_MEMORY VK_NULL_HANDLE (new device) [])
     = Some false
  /\ result_of (Create debug_build VK_FORMAT_R8G8B8A8_UNORM VK_FORMAT_D24_UNORM_S8_UINT
                       VK_ERROR_DEVICE_LOST VK_NULL_HANDLE (new device) []) = None.
Proof. repeat split. Qed.

(** ** [End] *)

(** C9. When [started] is false, [End] changes nothing: the object is the
    same and no command is recorded.  When [started] is true, [End] records
    the scope-exit command and sets [started] to false, leaving every other
    member as it was. *)
Theorem End_frame (activeCmdBuffer : VkCommandBuffer) (this : RenderPass) (tr : Trace) :
  (mStarted this = false ->
     End activeCmdBuffer this tr = Returned (tt, this) tr)
  /\ (mStarted this = true ->
      End activeCmdBuffer this tr
      = Returned (tt, set_mStarted false this) (tr ++ [vkCmdEndRenderPass activeCmdBuffer])
      /\ mStarted (set_mStarted false this) = false
      /\ mVkRenderPass (set_mStarted false this) = mVkRenderPass this).
Proof.
  rewrite End_eq. split; intros ->; repeat split.
Qed.

(** ** The invariant between [started] and the native handle *)

(** [Begin] sets [started] whatever the handle is; [Release] never touches it. *)
Lemma Begin_sets_started cb fb rect col d s this tr :
  exists this' tr',
    Begin cb fb rect col d s this tr = Returned (tt, this') tr'
    /\ mStarted this' = true /\ mVkRenderPass this' = mVkRenderPass this.
Proof.
  destruct (Begin_eq cb fb rect col d s this tr) as (info & -> & _).
  do 2 eexists. repeat split.
Qed.

Lemma Release_keeps_started this tr :
  exists this' tr',
    Release this tr = Returned (tt, this') tr'
    /\ mStarted this' = mStarted this /\ mVkRenderPass this' = VK_NULL_HANDLE.
Proof.
  rewrite Release_eq. destruct (mVkRenderPass this =? VK_NULL_HANDLE) eqn:Hh.
  - do 2 eexists. repeat split. apply Z.eqb_eq, Hh.
  - do 2 eexists. repeat split.
Qed.

(** C1, as stated, fails, in three ways: a [Begin] on a render pass that
    was never created leaves [started] true with a null handle; so does a
    [Release] inside a recording scope; and so does a [Create] inside a
    recording scope that the driver fails (where assertions are compiled
    out, the [Release] at its head has nulled the handle and [Create]
    returns false). *)
Lemma started_without_handle :
  ~ (forall cfg this, reachable cfg this -> started_implies_handle this)
  /\ (exists this tr,
        run debug_build [OpBegin 1 1 area (0, 0, 0, 0) 0 0] (new device) []
        = Returned (tt, this) tr
        /\ mStarted this = true /\ mVkRenderPass this = VK_NULL_HANDLE)
  /\ (exists this tr,
        run debug_build
            [OpCreate VK_FORMAT_R8G8B8A8_UNORM VK_FORMAT_UNDEFINED VK_SUCCESS 7;
             OpBegin 1 1 area (0, 0, 0, 0) 0 0;
             OpRelease]
            (new device) [] = Returned (tt, this) tr
        /\ mStarted this = true /\ mVkRenderPass this = VK_NULL_HANDLE)
  /\ (exists this tr,
        run release_build
            [OpCreate VK_FORMAT_R8G8B8A8_UNORM VK_FORMAT_UNDEFINED VK_SUCCESS 7;
             OpBegin 1 1 area (0, 0, 0, 0) 0 0;
             OpCreate VK_FORMAT_R8G8B8A8_UNORM VK_FORMAT_D24_UNORM_S8_UINT
                      VK_ERROR_OUT_OF_HOST_MEMORY VK_NULL_HANDLE]
            (new device) [] = Returned (tt, this) tr
        /\ mStarted this = true /\ mVkRenderPass this = VK_NULL_HANDLE).
Proof.
  split.
  - intros H.
    assert (R : reachable debug_build (set_mStarted true (new device))).
    { exists device, [OpBegin 1 1 area (0, 0, 0, 0) 0 0].
      eexists. reflexivity. }
    apply H in R. apply R; reflexivity.
  - repeat split; do 2 eexists; repeat split.
Qed.

Example started_after_Release :
  exists this tr,
    run debug_build
        [OpCreate VK_FORMAT_R8G8B8A8_UNORM VK_FORMAT_UNDEFINED VK_SUCCESS 7;
         OpBegin 1 1 area
                 (0, 0, 0, 0) 0 0;
         OpRelease]
        (new device) [] = Returned (tt, this) tr
    /\ mStarted this = true /\ mVkRenderPass this = VK_NULL_HANDLE.
Proof. do 2 eexists. repeat split. Qed.

(** One step of a disciplined run keeps the invariant. *)
Lemma exec_keeps_invariant cfg op this tr this' tr' :
  permitted this op = true ->
  started_implies_handle this ->
  exec cfg op this tr = Returned (tt, this') tr' ->
  started_implies_handle this'.
Proof.
  unfold started_implies_handle.
  destruct op as [cf dsf err out | cb fb rect col d s | cb | ]; cbn [exec permitted].
  - intros Hp _. unfold bind. rewrite Create_eq.
    destruct (NDEBUG cfg || (err =? 0)); [ | discriminate ].
    cbn. intros [= <- _] Hs. cbn in Hs.
    rewrite Hs in Hp. cbn in Hp. apply negb_true_iff, Z.eqb_neq in Hp. exact Hp.
  - intros Hp _.
    destruct (Begin_eq cb fb rect col d s this tr) as (info & -> & _).
    intros [= <- _] _. cbn.
    apply negb_true_iff, Z.eqb_neq in Hp. exact Hp.
  - intros _ Hinv. rewrite End_eq.
    destruct (mStarted this) eqn:Hs; intros [= <- _].
    + cbn. discriminate.
    + rewrite Hs. discriminate.
  - intros Hp _. rewrite Release_eq.
    apply negb_true_iff in Hp.
    destruct (mVkRenderPass this =? VK_NULL_HANDLE); intros [= <- _]; cbn; congruence.
Qed.

Lemma run_keeps_invariant cfg ops :
  forall this tr this' tr',
    disciplined cfg ops this tr = true ->
    started_implies_handle this ->
    run cfg ops this tr = Returned (tt, this') tr' ->
    started_implies_handle this'.
Proof.
  induction ops as [ | op rest IH ]; intros this tr this' tr' Hd Hinv Hrun.
  - cbn in Hrun. injection Hrun as <- _. exact Hinv.
  - cbn [disciplined] in Hd. apply andb_true_iff in Hd as [Hp Hd].
    cbn [run] in Hrun. unfold bind in Hrun.
    destruct (exec cfg op this tr) as [[[] this1] tr1 | | ] eqn:He; try discriminate.
    apply (IH this1 tr1 this' tr' Hd); [ | exact Hrun ].
    exact (exec_keeps_invariant cfg op this tr this1 tr1 Hp Hinv He).
Qed.

(** An operation that is not permitted breaks the invariant, when it
    returns: each of the three conditions is needed. *)
Lemma exec_breaks_invariant cfg op this tr this' tr' :
  permitted this op = false ->
  exec cfg op this tr = Returned (tt, this') tr' ->
  mStarted this' = true /\ mVkRenderPass this' = VK_NULL_HANDLE.
Proof.
  destruct op as [cf dsf err out | cb fb rect col d s | cb | ]; cbn [exec permitted].
  - intros Hp. apply orb_false_iff in Hp as [Hs Ho].
    apply negb_false_iff in Hs, Ho. apply Z.eqb_eq in Ho.
    unfold bind. rewrite Create_eq.
    destruct (NDEBUG cfg || (err =? 0)); [ | discriminate ].
    cbn. intros [= <- _]. cbn. split; assumption.
  - intros Hp. apply negb_false_iff, Z.eqb_eq in Hp.
    destruct (Begin_eq cb fb rect col d s this tr) as (info & -> & _).
    intros [= <- _]. cbn. split; [ reflexivity | exact Hp ].
  - discriminate.
  - intros Hp. apply negb_false_iff in Hp. rewrite Release_eq.
    destruct (mVkRenderPass this =? VK_NULL_HANDLE) eqn:Hh; intros [= <- _]; cbn.
    + apply Z.eqb_eq in Hh. split; assumption.
    + split; [ exact Hp | reflexivity ].
Qed.

(** A run that returns without being disciplined passes through a state in
    which [started] is true and the handle is null. *)
Lemma undisciplined_run_breaks_invariant cfg ops :
  forall this tr this' tr',
    run cfg ops this tr = Returned (tt, this') tr' ->
    disciplined cfg ops this tr = false ->
    exists ops1 ops2 this1 tr1,
      ops = ops1 ++ ops2
      /\ run cfg ops1 this tr = Returned (tt, this1) tr1
      /\ mStarted this1 = true /\ mVkRenderPass this1 = VK_NULL_HANDLE.
Proof.
  induction ops as [ | op rest IH ]; intros this tr this' tr' Hrun Hd;
    [ discriminate Hd | ].
  cbn [disciplined] in Hd. cbn [run] in Hrun. unfold bind in Hrun.
  destruct (exec cfg op this tr) as [[[] this1] tr1 | | ] eqn:He; try discriminate.
  destruct (permitted this op) eqn:Hp.
  - cbn [andb] in Hd.
    destruct (IH this1 tr1 this' tr' Hrun Hd) as (ops1 & ops2 & s & t & -> & Hr & Hs & Hh).
    exists (op :: ops1), ops2, s, t. repeat split; try assumption.
    cbn [run]. unfold bind. rewrite He. exact Hr.
  - destruct (exec_breaks_invariant cfg op this tr this1 tr1 Hp He) as [Hs Hh].
    exists [op], rest, this1, tr1. repeat split; try assumption.
    cbn [run]. unfold bind. rewrite He. reflexivity.
Qed.

(** C1, amended.  For every sequence of Create, Begin, End and Release in
    which every Begin is issued while the native handle is non-null, every
    Release while [started] is false, and every Create issued while
    [started] is true is left a non-null handle by the driver, every state
    reached from a fresh render pass has [started] true only while the
    native handle is non-null. *)
Theorem disciplined_started_implies_handle cfg vkContext ops this tr :
  disciplined cfg ops (new vkContext) [] = true ->
  run cfg ops (new vkContext) [] = Returned (tt, this) tr ->
  started_implies_handle this.
Proof.
  intros Hd Hrun.
  apply (run_keeps_invariant cfg ops (new vkContext) [] this tr Hd); [ | exact Hrun ].
  intros Hs. discriminate Hs.
Qed.

(** A Create, a Begin, and a second Create inside the recording scope that
    the driver answers with a new handle: a disciplined sequence, which ends
    started and holding the second handle. *)
Lemma disciplined_started_implies_handle_witness :
  exists this tr,
    run debug_build
        [OpCreate VK_FORMAT_R8G8B8A8_UNORM VK_FORMAT_UNDEFINED VK_SUCCESS 7;
         OpBegin 1 1 area (0, 0, 0, 0) 0 0;
         OpCreate VK_FORMAT_R8G8B8A8_UNORM VK_FORMAT_D24_UNORM_S8_UINT VK_SUCCESS 8]
        (new device) [] = Returned (tt, this) tr
    /\ mStarted this = true /\ mVkRenderPass this = 8
    /\ started_implies_handle this.
Proof.
  do 2 eexists. split; [ reflexivity | ]. split; [ reflexivity | ].
  split; [ reflexivity | ].
  eapply (disciplined_started_implies_handle debug_build device
            [OpCreate VK_FORMAT_R8G8B8A8_UNORM VK_FORMAT_UNDEFINED VK_SUCCESS 7;
             OpBegin 1 1 area (0, 0, 0, 0) 0 0;
             OpCreate VK_FORMAT_R8G8B8A8_UNORM VK_FORMAT_D24_UNORM_S8_UINT VK_SUCCESS 8]).
  - reflexivity.
  - reflexivity.
Defined.

End RenderPassFacts.

(** * Properties of Shader *)

Module ShaderFacts.
Import Shader ShaderSpec Examples.

(** ** [CreateVkShaderModule] *)

Lemma DestroyVkShader_eq (this : Shader) (tr : Trace) :
  DestroyVkShader this tr =
    if mVkShaderModule this =? VK_NULL_HANDLE then Returned (tt, this) tr
    else Returned (tt, set_mVkShaderModule VK_NULL_HANDLE this)
                  (tr ++ [vkDestroyShaderModule (vkDevice (mVkContext this))
                                                (mVkShaderModule this)]).
Proof.
  unfold DestroyVkShader, bind, get, when.
  destruct (mVkShaderModule this =? VK_NULL_HANDLE); reflexivity.
Qed.

Lemma shader_module_requests_app tr1 tr2 :
  shader_module_requests (tr1 ++ tr2)
  = shader_module_requests tr1 ++ shader_module_requests tr2.
Proof. unfold shader_module_requests. apply flat_map_app. Qed.

(** C8, as stated, fails where assertions are compiled out: nothing checks
    the stage, and the creation request of a shader of stage INVALID reaches
    the driver. *)
Lemma CreateVkShaderModule_invalid_stage_release_build :
  mShaderType stageless_shader = SHADER_TYPE_INVALID
  /\ CreateVkShaderModule release_build VK_SUCCESS 9 stageless_shader []
     = Returned (9, set_mVkShaderModule 9 stageless_shader)
                [vkCreateShaderModule 1
                   {| sm_sType := VK_STRUCTURE_TYPE_SHADER_MODULE_CREATE_INFO;
                      sm_flags := 0; codeSize := 8; pCode := [119734787; 65536] |}]
  /\ shader_module_requests
       (trace_of (CreateVkShaderModule release_build VK_SUCCESS 9 stageless_shader []))
     <> [].
Proof. repeat split. cbn. discriminate. Qed.

(** C8, amended.  With assertions compiled in, [CreateVkShaderModule] on a
    shader of stage INVALID stops the process before any call to the
    driver.  In every build, on a shader of stage VERTEX or FRAGMENT whose
    binary is empty it destroys the module it holds, if any, and returns the
    null handle without asking the driver for a module. *)
Theorem CreateVkShaderModule_guards cfg err out (this : Shader) (tr : Trace) :
  (NDEBUG cfg = false -> mShaderType this = SHADER_TYPE_INVALID ->
     CreateVkShaderModule cfg err out this tr = Aborted tr)
  /\ (mShaderType this = SHADER_TYPE_VERTEX \/ mShaderType this = SHADER_TYPE_FRAGMENT ->
      mSpv this = [] ->
      exists this',
        CreateVkShaderModule cfg err out this tr
        = Returned (VK_NULL_HANDLE, this')
                   (tr ++ if mVkShaderModule this =? VK_NULL_HANDLE then []
                          else [vkDestroyShaderModule (vkDevice (mVkContext this))
                                                      (mVkShaderModule this)])
        /\ mVkShaderModule this' = VK_NULL_HANDLE
        /\ shader_module_requests
             (trace_of (CreateVkShaderModule cfg err out this tr))
           = shader_module_requests tr).
Proof.
  split.
  - intros Hn Hty. unfold CreateVkShaderModule, bind, get, assert.
    rewrite Hn, Hty. reflexivity.
  - intros Hty Hspv.
    assert (Hvf : is_vertex_or_fragment (mShaderType this) = true)
      by (destruct Hty as [-> | ->]; reflexivity).
    unfold CreateVkShaderModule, bind, get, assert. rewrite Hvf.
    assert (Hstep : forall tr0, (if NDEBUG cfg then @ret Shader unit tt else ret tt) this tr0
                                = Returned (tt, this) tr0)
      by (intro; destruct (NDEBUG cfg); reflexivity).
    rewrite Hstep, DestroyVkShader_eq.
    destruct (mVkShaderModule this =? VK_NULL_HANDLE) eqn:Hh.
    + rewrite Hspv. cbn. exists this. rewrite app_nil_r.
      repeat split. apply Z.eqb_eq, Hh.
    + cbn. rewrite Hspv. cbn. eexists. repeat split.
      rewrite shader_module_requests_app. cbn. apply app_nil_r.
Qed.

(** ** [SetShaderSource]: the two loops *)

Lemma u32_small z : 0 <= z < 2 ^ 32 -> u32 z = z.
Proof. intros H. unfold u32. apply Z.mod_small, H. Qed.

(** [strlen] measures the text that [c_string] reads. *)
Lemma c_string_strlen s :
  forall t, c_string s = Some t ->
            strlen s = Some (Z.of_nat (length t))
            /\ firstn (length t) s = t /\ (length t <= length s)%nat.
Proof.
  induction s as [ | b rest IH ]; intros t H; cbn in H; [ discriminate | ].
  cbn [strlen]. destruct (Byte.eqb b x00).
  - injection H as <-. cbn. repeat split. lia.
  - destruct (c_string rest) as [t' | ]; [ | discriminate ].
    injection H as <-. destruct (IH t' eq_refl) as (-> & Hf & Hl).
    cbn [length firstn]. rewrite Hf. repeat split; [ | lia ].
    f_equal. lia.
Qed.

Lemma memcpy_read_length {A} (s : list A) n t :
  memcpy_read s n = Some t ->
  n = Z.of_nat (length t) /\ firstn (length t) s = t /\ (length t <= length s)%nat.
Proof.
  unfold memcpy_read.
  destruct ((0 <=? n) && (n <=? Z.of_nat (length s))) eqn:Hb; [ | discriminate ].
  apply andb_true_iff in Hb as [H0 H1]. apply Z.leb_le in H0, H1.
  intros [= <-].
  assert (Hl : length (firstn (Z.to_nat n) s) = Z.to_nat n)
    by (apply firstn_length_le; lia).
  rewrite Hl. repeat split; lia.
Qed.

Lemma memcpy_read_firstn {A} (s : list A) (k : nat) :
  (k <= length s)%nat -> memcpy_read s (Z.of_nat k) = Some (firstn k s).
Proof.
  intros H. unfold memcpy_read.
  replace ((0 <=? Z.of_nat k) && (Z.of_nat k <=? Z.of_nat (length s))) with true.
  - rewrite Nat2Z.id. reflexivity.
  - symmetry. apply andb_true_iff. split; apply Z.leb_le; lia.
Qed.

(** What a fragment text says about the memory the loops read. *)
Lemma fragment_text_inv source length i t :
  fragment_text source length i = Some t ->
  exists s,
    nth_error source i = Some s
    /\ firstn (List.length t) s = t /\ (List.length t <= List.length s)%nat
    /\ match length with
       | None => strlen s = Some (Z.of_nat (List.length t))
       | Some l =>
           exists li, nth_error l i = Some li
                      /\ if li <? 0 then strlen s = Some (Z.of_nat (List.length t))
                         else li = Z.of_nat (List.length t)
       end.
Proof.
  unfold fragment_text. destruct (nth_error source i) as [s | ]; [ | discriminate ].
  intros H. exists s. split; [ reflexivity | ].
  destruct length as [l | ].
  - destruct (nth_error l i) as [li | ]; [ | discriminate ].
    destruct (li <? 0) eqn:Hneg.
    + destruct (c_string_strlen s t H) as (Hs & Hf & Hl).
      repeat split; try assumption. exists li. rewrite Hneg. split; [ reflexivity | exact Hs ].
    + destruct (memcpy_read_length s li t H) as (Hs & Hf & Hl).
      repeat split; try assumption. exists li. rewrite Hneg. split; [ reflexivity | exact Hs ].
  - destruct (c_string_strlen s t H) as (Hs & Hf & Hl). repeat split; assumption.
Qed.

Lemma total_length_cons t ts :
  total_length (t :: ts) = Z.of_nat (length t) + total_length ts.
Proof. unfold total_length. cbn. rewrite length_app. lia. Qed.

Lemma total_length_nonneg ts : 0 <= total_length ts.
Proof. unfold total_length. lia. Qed.

(** One turn of the first loop. *)
Lemma count_length_eq source length i t sl a base tr :
  fragment_text source length i = Some t ->
  0 <= a -> a + Z.of_nat (List.length t) < 2 ^ 32 ->
  count_length source length i sl (set_mSourceLength a base) tr
  = Returned (sl ++ [Z.of_nat (List.length t)],
              set_mSourceLength (a + Z.of_nat (List.length t)) base) tr.
Proof.
  intros Ht Ha Hlt.
  destruct (fragment_text_inv _ _ _ _ Ht) as (s & Hs & _ & _ & Hlen).
  assert (Hu : u32 (Z.of_nat (List.length t)) = Z.of_nat (List.length t))
    by (apply u32_small; lia).
  assert (Hu' : u32 (a + Z.of_nat (List.length t)) = a + Z.of_nat (List.length t))
    by (apply u32_small; lia).
  unfold count_length, bind, defined, modify, ret.
  destruct length as [l | ].
  - destruct Hlen as (li & Hli & Hcase). rewrite Hli.
    destruct (li <? 0).
    + rewrite Hs, Hcase, Hu. cbn. rewrite Hu'. reflexivity.
    + rewrite Hcase, Hu. cbn. rewrite Hu'. reflexivity.
  - rewrite Hs, Hlen, Hu. cbn. rewrite Hu'. reflexivity.
Qed.

(** The first loop: the lengths of the fragments, and their sum in
    [mSourceLength]. *)
Lemma count_lengths_eq source length n :
  forall i texts sl a base tr,
    fragment_texts n i source length = Some texts ->
    0 <= a -> a + total_length texts < 2 ^ 32 ->
    for_ n i (count_length source length) sl (set_mSourceLength a base) tr
    = Returned (sl ++ map (fun t => Z.of_nat (List.length t)) texts,
                set_mSourceLength (a + total_length texts) base) tr.
Proof.
  induction n as [ | n IH ]; intros i texts sl a base tr Ht Ha Hlt; cbn in Ht.
  - injection Ht as <-. cbn. rewrite app_nil_r.
    unfold ret, total_length. cbn. rewrite Z.add_0_r. reflexivity.
  - destruct (fragment_text source length i) as [t | ] eqn:Hti; [ | discriminate ].
    destruct (fragment_texts n (S i) source length) as [ts | ] eqn:Hts; [ | discriminate ].
    injection Ht as <-. rewrite total_length_cons in Hlt.
    pose proof (total_length_nonneg ts) as Hts0.
    cbn [for_]. unfold bind at 1.
    rewrite (count_length_eq source length i t sl a base tr Hti Ha) by lia.
    rewrite (IH (S i) ts _ _ base tr Hts) by lia.
    rewrite <- app_assoc, total_length_cons, Z.add_assoc. reflexivity.
Qed.

(** A [memcpy] behind the part of the buffer already filled. *)
Lemma memcpy_write_eq (pre rest data : list cell) :
  (length data <= length rest)%nat ->
  memcpy_write (pre ++ rest) (Z.of_nat (length pre)) data
  = Some (pre ++ data ++ skipn (length data) rest).
Proof.
  intros H. unfold memcpy_write.
  replace ((0 <=? Z.of_nat (length pre))
           && (Z.of_nat (length pre) + Z.of_nat (length data)
               <=? Z.of_nat (length (pre ++ rest)))) with true.
  - rewrite Nat2Z.id. f_equal.
    rewrite firstn_app, firstn_all, Nat.sub_diag, firstn_O, app_nil_r.
    f_equal. f_equal.
    rewrite skipn_app, skipn_all2 by lia.
    cbn [app]. f_equal. lia.
  - symmetry. apply andb_true_iff. rewrite length_app.
    split; apply Z.leb_le; lia.
Qed.

(** One turn of the second loop. *)
Lemma copy_fragment_eq source length sls i t (pre : list byte) rest base tr :
  fragment_text source length i = Some t ->
  nth_error sls i = Some (Z.of_nat (List.length t)) ->
  (List.length t <= List.length rest)%nat ->
  Z.of_nat (List.length pre) + Z.of_nat (List.length t) < 2 ^ 32 ->
  copy_fragment source sls i (Z.of_nat (List.length pre))
                (set_mSource (Some (map Some pre ++ rest)) base) tr
  = Returned (Z.of_nat (List.length (pre ++ t)),
              set_mSource (Some (map Some (pre ++ t) ++ skipn (List.length t) rest)) base)
             tr.
Proof.
  intros Ht Hn Hrest Hlt.
  destruct (fragment_text_inv _ _ _ _ Ht) as (s & Hs & Hf & Hl & _).
  unfold copy_fragment, bind, defined. rewrite Hn. unfold ret at 1.
  destruct (Z.of_nat (List.length t) =? 0) eqn:Hz; cbn [negb].
  - apply Z.eqb_eq in Hz. destruct t; [ | cbn in Hz; lia ].
    rewrite app_nil_r. reflexivity.
  - rewrite Hs. unfold ret at 1.
    rewrite (memcpy_read_firstn s _ Hl), Hf. unfold ret at 1, get.
    cbn [mSource set_mSource]. unfold ret at 1.
    replace (Z.of_nat (List.length pre)) with (Z.of_nat (List.length (map Some pre)))
      by (rewrite length_map; reflexivity).
    rewrite memcpy_write_eq by (rewrite length_map; exact Hrest).
    unfold ret at 1, modify, ret.
    rewrite !length_map, length_app, map_app, <- app_assoc, u32_small by lia.
    rewrite Nat2Z.inj_add. reflexivity.
Qed.

(** The second loop: the fragments laid out one behind the other. *)
Lemma copy_fragments_eq source length sls n :
  forall i texts (pre : list byte) rest base tr,
    fragment_texts n i source length = Some texts ->
    (forall j t, nth_error texts j = Some t ->
                 nth_error sls (i + j) = Some (Z.of_nat (List.length t))) ->
    (List.length (concat texts) <= List.length rest)%nat ->
    Z.of_nat (List.length pre) + total_length texts < 2 ^ 32 ->
    for_ n i (copy_fragment source sls) (Z.of_nat (List.length pre))
         (set_mSource (Some (map Some pre ++ rest)) base) tr
    = Returned (Z.of_nat (List.length (pre ++ concat texts)),
                set_mSource (Some (map Some (pre ++ concat texts)
                                   ++ skipn (List.length (concat texts)) rest)) base)
               tr.
Proof.
  induction n as [ | n IH ]; intros i texts pre rest base tr Ht Hsl Hrest Hlt; cbn in Ht.
  - injection Ht as <-. cbn. rewrite app_nil_r. reflexivity.
  - destruct (fragment_text source length i) as [t | ] eqn:Hti; [ | discriminate ].
    destruct (fragment_texts n (S i) source length) as [ts | ] eqn:Hts; [ | discriminate ].
    injection Ht as <-. rewrite total_length_cons in Hlt.
    pose proof (total_length_nonneg ts) as Hts0.
    cbn [concat] in Hrest |- *. rewrite length_app in Hrest.
    cbn [for_]. unfold bind at 1.
    rewrite (copy_fragment_eq source length sls i t pre rest base tr Hti); try lia.
    + rewrite (IH (S i) ts (pre ++ t) (skipn (List.length t) rest) base tr Hts).
      * rewrite skipn_skipn, <- app_assoc, (length_app t).
        rewrite (Nat.add_comm (List.length (concat ts))). reflexivity.
      * intros j t' Hj. rewrite <- (Hsl (S j) t' Hj). f_equal. lia.
      * rewrite length_skipn. lia.
      * rewrite length_app. lia.
    + rewrite <- (Hsl 0%nat t eq_refl). f_equal. lia.
Qed.

(** ** [SetShaderSource] as a whole *)

Lemma bind_returned {S A B} (m : M S A) (k : A -> M S B) s tr a s' tr' :
  m s tr = Returned (a, s') tr' -> bind m k s tr = k a s' tr'.
Proof. intros H. unfold bind. rewrite H. reflexivity. Qed.

Lemma FreeSources_eq this tr : FreeSources this tr = Returned (tt, free_sources this) tr.
Proof.
  unfold FreeSources, free_sources, bind, get.
  destruct (mSource this); reflexivity.
Qed.

Lemma assert_true {S} cfg (s : S) tr : assert cfg true s tr = Returned (tt, s) tr.
Proof. unfold assert. destruct (NDEBUG cfg); reflexivity. Qed.

(** The last cell of the buffer receives the terminator. *)
Lemma terminate_buffer (text : list byte) :
  memcpy_write
    (map Some text ++ skipn (length text) (new_char (Z.of_nat (length text) + 1)))
    (Z.of_nat (length text)) [Some x00]
  = Some (map Some (text ++ [x00])).
Proof.
  assert (Hl : length (skipn (length text) (new_char (Z.of_nat (length text) + 1))) = 1%nat).
  { rewrite length_skipn. unfold new_char. rewrite repeat_length. lia. }
  replace (Z.of_nat (length text)) with (Z.of_nat (length (map Some text))) at 2
    by (rewrite length_map; reflexivity).
  rewrite memcpy_write_eq by (rewrite Hl; cbn; lia).
  rewrite skipn_all2 by (rewrite Hl; cbn; lia).
  rewrite map_app. reflexivity.
Qed.

(** The closed form of [SetShaderSource] on readable fragments. *)
Lemma SetShaderSource_eq cfg count source length texts this tr :
  0 < count ->
  fragment_texts (Z.to_nat count) 0 source length = Some texts ->
  total_length texts + 1 < 2 ^ 32 ->
  (GLOVE_SAVE_SHADER_SOURCES_TO_FILES cfg = true -> total_length texts <> 0 ->
   mShaderCompiler this <> None) ->
  SetShaderSource cfg count (Some source) length this tr
  = if total_length texts =? 0
    then Returned (tt, set_mSourceLength 0 (set_mCompiled false (free_sources this))) tr
    else Returned (tt, set_mSource (Some (map Some (concat texts ++ [x00])))
                         (set_mSourceLength (total_length texts)
                            (set_mCompiled false (free_sources this))))
                  (tr ++ diagnostics cfg this (map Some (concat texts ++ [x00]))).
Proof.
  intros Hcount Htexts Hlt Hcomp.
  pose proof (total_length_nonneg texts) as H0.
  set (base := set_mCompiled false (free_sources this)).
  unfold SetShaderSource.
  rewrite (bind_returned _ _ _ _ _ _ _ (FreeSources_eq this tr)).
  erewrite bind_returned by reflexivity.
  replace (count =? 0) with false by (symmetry; apply Z.eqb_neq; lia).
  replace (count <? 0) with false by (symmetry; apply Z.ltb_ge; lia).
  erewrite bind_returned by reflexivity.
  erewrite bind_returned
    by (apply (count_lengths_eq source length (Z.to_nat count) 0 texts [] 0 base tr Htexts);
        lia).
  erewrite bind_returned by reflexivity.
  cbn [mSourceLength set_mSourceLength app]. rewrite Z.add_0_l.
  destruct (total_length texts =? 0) eqn:Hz.
  - apply Z.eqb_eq in Hz. rewrite Hz. reflexivity.
  - apply Z.eqb_neq in Hz.
    erewrite bind_returned by reflexivity.
    rewrite u32_small by lia.
    erewrite bind_returned.
    2:{ apply (copy_fragments_eq source length _ (Z.to_nat count) 0%nat texts []
                 (new_char (total_length texts + 1))
                 (set_mSourceLength (total_length texts) base) tr Htexts).
        - intros j t Hj. cbn.
          exact (map_nth_error (fun t : list byte => Z.of_nat (List.length t)) j texts Hj).
        - unfold new_char, total_length. rewrite repeat_length. lia.
        - cbn. lia. }
    cbn [app]. fold (total_length texts).
    erewrite bind_returned by reflexivity.
    cbn [mSourceLength set_mSourceLength set_mSource].
    rewrite Z.eqb_refl.
    rewrite (bind_returned _ _ _ _ _ _ _ (assert_true cfg _ _)).
    erewrite bind_returned by reflexivity.
    unfold total_length at 1 2. rewrite terminate_buffer.
    erewrite bind_returned by reflexivity.
    erewrite bind_returned by reflexivity.
    cbn [mShaderCompiler mShaderType mShaderVersion set_mSource set_mSourceLength
         set_mCompiled base].
    assert (Hfs : mShaderCompiler (free_sources this) = mShaderCompiler this
                  /\ mShaderType (free_sources this) = mShaderType this
                  /\ mShaderVersion (free_sources this) = mShaderVersion this)
      by (unfold free_sources; destruct (mSource this); repeat split).
    destruct Hfs as (-> & -> & ->).
    unfold diagnostics, when.
    destruct (GLOVE_SAVE_SHADER_SOURCES_TO_FILES cfg) eqn:Hsave.
    + destruct (mShaderCompiler this) as [c | ] eqn:Hc;
        [ | exfalso; apply (Hcomp eq_refl Hz eq_refl) ].
      destruct (GLOVE_DUMP_ORIGINAL_SHADER_SOURCE cfg);
        unfold bind, defined, ret, call, modify; cbn;
        rewrite <- ?app_assoc, ?app_nil_r; reflexivity.
    + destruct (GLOVE_DUMP_ORIGINAL_SHADER_SOURCE cfg);
        unfold bind, defined, ret, call, modify; cbn;
        rewrite <- ?app_assoc, ?app_nil_r; reflexivity.
Qed.

(** ** What [SetShaderSource] leaves alone *)

Lemma linkage_kept_refl s : linkage_kept s s.
Proof. repeat split. Qed.

Lemma linkage_kept_trans s1 s2 s3 :
  linkage_kept s1 s2 -> linkage_kept s2 s3 -> linkage_kept s1 s3.
Proof. unfold linkage_kept. intuition congruence. Qed.

Lemma keeps_ret {A} (a : A) : keeps (ret a).
Proof. intros s tr a' s' tr' [= _ <- _]. apply linkage_kept_refl. Qed.

Lemma keeps_get : keeps get.
Proof. intros s tr a' s' tr' [= _ <- _]. apply linkage_kept_refl. Qed.

Lemma keeps_call e : keeps (call e).
Proof. intros s tr a' s' tr' [= _ <- _]. apply linkage_kept_refl. Qed.

Lemma keeps_abort {A} : keeps (@abort Shader A).
Proof. intros s tr a' s' tr' [=]. Qed.

Lemma keeps_defined {A} (o : option A) : keeps (defined o).
Proof. destruct o; [ apply keeps_ret | intros s tr a' s' tr' [=] ]. Qed.

Lemma keeps_assert cfg b : keeps (assert cfg b).
Proof.
  unfold assert. destruct (NDEBUG cfg); [ apply keeps_ret | ].
  destruct b; [ apply keeps_ret | apply keeps_abort ].
Qed.

Lemma keeps_modify (f : Shader -> Shader) :
  (forall s, linkage_kept s (f s)) -> keeps (modify f).
Proof. intros H s tr a' s' tr' [= _ <- _]. apply H. Qed.

Lemma keeps_bind {A B} (m : M Shader A) (k : A -> M Shader B) :
  keeps m -> (forall a, keeps (k a)) -> keeps (bind m k).
Proof.
  intros Hm Hk s tr b s' tr' H. unfold bind in H.
  destruct (m s tr) as [[a s1] tr1 | | ] eqn:E; try discriminate.
  apply (linkage_kept_trans s s1 s'); [ exact (Hm _ _ _ _ _ E) | exact (Hk _ _ _ _ _ _ H) ].
Qed.

Lemma keeps_when b (m : M Shader unit) : keeps m -> keeps (when b m).
Proof. intros H. destruct b; [ exact H | apply keeps_ret ]. Qed.

Lemma keeps_for {A} (body : nat -> A -> M Shader A) :
  (forall i a, keeps (body i a)) -> forall n i a, keeps (for_ n i body a).
Proof.
  intros Hb. induction n as [ | n IH ]; intros i a; cbn [for_].
  - apply keeps_ret.
  - apply keeps_bind; [ apply Hb | intro; apply IH ].
Qed.

Ltac frame :=
  repeat first
    [ apply keeps_ret | apply keeps_get | apply keeps_call | apply keeps_abort
    | apply keeps_defined | apply keeps_assert
    | apply keeps_modify; intro; repeat split
    | apply keeps_when
    | apply keeps_for; intros
    | apply keeps_bind; [ | intro ]
    | match goal with
      | |- keeps (match ?x with _ => _ end) => destruct x
      end ].

Lemma keeps_count_length source length i sl : keeps (count_length source length i sl).
Proof. unfold count_length. frame. Qed.

Lemma keeps_copy_fragment source sls i cur : keeps (copy_fragment source sls i cur).
Proof. unfold copy_fragment. frame. Qed.

(** Whatever the arguments, a [SetShaderSource] that returns has cleared
    [mCompiled] and has left the binary and the module as they were. *)
Lemma SetShaderSource_linkage cfg count source length this tr this' tr' :
  SetShaderSource cfg count source length this tr = Returned (tt, this') tr' ->
  mCompiled this' = false
  /\ mSpv this' = mSpv this
  /\ mVkShaderModule this' = mVkShaderModule this.
Proof.
  unfold SetShaderSource. intros H.
  rewrite (bind_returned _ _ _ _ _ _ _ (FreeSources_eq this tr)) in H.
  erewrite bind_returned in H by reflexivity.
  assert (K : linkage_kept (set_mCompiled false (free_sources this)) this').
  { revert H. generalize (set_mCompiled false (free_sources this)). intros s H.
    match type of H with
    | ?m s tr = _ => enough (K : keeps m) by exact (K _ _ _ _ _ H)
    end.
    clear H.
    destruct source as [source0 | ]; [ | apply keeps_ret ].
    destruct (count =? 0); [ apply keeps_ret | ].
    destruct (count <? 0); [ apply keeps_abort | ].
    apply keeps_bind; [ frame | intro ].
    apply keeps_bind; [ apply keeps_for; intros; apply keeps_count_length | intro ].
    apply keeps_bind; [ frame | intro ].
    destruct (mSourceLength _ =? 0); [ apply keeps_ret | ].
    apply keeps_bind; [ frame | intro ].
    apply keeps_bind; [ apply keeps_for; intros; apply keeps_copy_fragment | intro ].
    frame. }
  destruct K as (K1 & K2 & K3). cbn in K1, K2, K3.
  assert (F : mSpv (free_sources this) = mSpv this
              /\ mVkShaderModule (free_sources this) = mVkShaderModule this)
    by (unfold free_sources; destruct (mSource this); split; reflexivity).
  destruct F as (F1 & F2). repeat split; congruence.
Qed.

(** ** Reading the source back *)

Lemma to_int_small z : 0 <= z < 2 ^ 31 -> to_int z = z.
Proof.
  intros H. unfold to_int. cbv zeta.
  rewrite Z.mod_small by lia.
  destruct (z <? 2 ^ 31) eqn:E; [ reflexivity | apply Z.ltb_ge in E; lia ].
Qed.

Lemma mSource_free_sources this : mSource (free_sources this) = None.
Proof. unfold free_sources. destruct (mSource this) eqn:E; [ reflexivity | exact E ]. Qed.

Lemma GetShaderSourceLength_stored this n :
  mSourceLength this = n -> 0 < n -> n + 1 < 2 ^ 31 ->
  GetShaderSourceLength this = n + 1.
Proof.
  intros <- Hpos Hlt. unfold GetShaderSourceLength.
  replace (0 <? mSourceLength this) with true by (symmetry; apply Z.ltb_lt; lia).
  rewrite u32_small by lia. apply to_int_small. lia.
Qed.

Lemma GetShaderSource_stored this tr (text : list byte) :
  mSource this = Some (map Some (text ++ [x00])) ->
  mSourceLength this = Z.of_nat (length text) ->
  0 < Z.of_nat (length text) -> Z.of_nat (length text) + 1 < 2 ^ 31 ->
  GetShaderSource this tr = Returned (Some (map Some (text ++ [x00])), this) tr.
Proof.
  intros Hsrc Hlen Hpos Hlt.
  unfold GetShaderSource.
  erewrite bind_returned by reflexivity.
  rewrite Hsrc, (GetShaderSourceLength_stored this _ Hlen Hpos Hlt).
  replace (Z.of_nat (length text) + 1 <? 0) with false by (symmetry; apply Z.ltb_ge; lia).
  replace (Z.of_nat (length text) + 1)
    with (Z.of_nat (length (map Some (text ++ [x00]))))
    by (rewrite length_map, length_app, Nat2Z.inj_add; reflexivity).
  rewrite memcpy_read_firstn by apply Nat.le_refl.
  rewrite firstn_all. reflexivity.
Qed.

(** C2, as stated, fails for fragments that are all empty: the shader is
    left without source, [GetShaderSource] answers the null pointer and not
    a buffer holding one terminator, and [GetShaderSourceLength] answers 0
    and not 0 + 1. *)
Lemma empty_fragment_leaves_no_source :
  fragment_texts 1 0 [[x00]] None = Some [[]]
  /\ source_after debug_build 1 (Some [[x00]]) None (new device)
     = Some (None, 0)
  /\ source_after debug_build 1 (Some [[x00]]) None (new device)
     <> Some (Some (map Some (concat [[]] ++ [x00])), total_length [[]] + 1).
Proof. repeat split. discriminate. Qed.

(** C2, amended.  For every fragment count >= 1, every array of readable
    fragments and every length specification, whose concatenation is
    shorter than 2^31 - 1 bytes: when the concatenation is not empty,
    [GetShaderSource] after [SetShaderSource] returns exactly the fragments
    concatenated in input order followed by one null terminator, and
    [GetShaderSourceLength] returns the concatenated length plus 1; when the
    concatenation is empty, [GetShaderSource] returns the null pointer and
    [GetShaderSourceLength] returns 0. *)
Theorem SetShaderSource_GetShaderSource cfg count source length texts this tr :
  1 <= count ->
  fragment_texts (Z.to_nat count) 0 source length = Some texts ->
  total_length texts + 1 < 2 ^ 31 ->
  (GLOVE_SAVE_SHADER_SOURCES_TO_FILES cfg = true -> mShaderCompiler this <> None) ->
  exists this' tr',
    SetShaderSource cfg count (Some source) length this tr = Returned (tt, this') tr'
    /\ GetShaderSource this' tr'
       = Returned (if total_length texts =? 0 then None
                   else Some (map Some (concat texts ++ [x00])), this') tr'
    /\ GetShaderSourceLength this'
       = if total_length texts =? 0 then 0 else total_length texts + 1.
Proof.
  intros Hcount Htexts Hlt Hcomp.
  pose proof (total_length_nonneg texts) as H0.
  rewrite (SetShaderSource_eq cfg count source length texts this tr)
    by (try assumption; try lia; auto).
  destruct (total_length texts =? 0) eqn:Hz.
  - do 2 eexists. split; [ reflexivity | ]. split.
    + unfold GetShaderSource. erewrite bind_returned by reflexivity.
      cbn [mSource set_mSourceLength set_mCompiled].
      rewrite mSource_free_sources. reflexivity.
    + reflexivity.
  - apply Z.eqb_neq in Hz. do 2 eexists. split; [ reflexivity | ]. split.
    + apply GetShaderSource_stored; try reflexivity; unfold total_length in *; lia.
    + apply GetShaderSourceLength_stored; try reflexivity; lia.
Qed.

(** A null-terminated fragment followed by two bytes of a longer one. *)
Lemma SetShaderSource_GetShaderSource_witness :
  exists this' tr',
    SetShaderSource debug_build 2
      (Some [bytes_of "ab" ++ [x00]; bytes_of "cdXYZ"]) (Some [-1; 2])
      (new device) [] = Returned (tt, this') tr'
    /\ GetShaderSource this' tr'
       = Returned (Some (map Some (bytes_of "abcd" ++ [x00])), this') tr'
    /\ GetShaderSourceLength this' = 5.
Proof.
  apply (SetShaderSource_GetShaderSource debug_build 2
           [bytes_of "ab" ++ [x00]; bytes_of "cdXYZ"] (Some [-1; 2])
           [bytes_of "ab"; bytes_of "cd"] (new device) []).
  - lia.
  - reflexivity.
  - reflexivity.
  - discriminate.
Defined.

(** ** The flag, the binary and the module across [SetShaderSource] *)



Example SetShaderSource_null_sources :
  SetShaderSource debug_build 3 None None compiled_shader []
  = Returned (tt, set_mCompiled false (set_mSourceLength 0 (set_mSource None compiled_shader)))
             [].
Proof. reflexivity. Qed.

(** ** The scenario of the two fragments *)

(** C7, as stated, fails on its two numbers: the concatenation
    ["void main() {}"] has 14 bytes, so the stored length is 14 and not 15,
    and [GetShaderSourceLength] answers 15 and not 16. *)
Lemma void_main_has_14_bytes :
  exists this' tr',
    SetShaderSource debug_build 2 (Some void_main_fragments) None (new device) []
    = Returned (tt, this') tr'
    /\ mSource this' = Some (map Some (bytes_of "void main() {}" ++ [x00]))
    /\ mSourceLength this' = 14 /\ mSourceLength this' <> 15
    /\ GetShaderSourceLength this' = 15 /\ GetShaderSourceLength this' <> 16.
Proof. do 2 eexists. repeat split; discriminate. Qed.

(** C7, amended.  After [SetShaderSource(2, ["void main() {", "}"], null)]
    the stored source is ["void main() {}"] followed by its terminator, the
    stored source length is 14, and [GetShaderSourceLength] returns 15. *)
Theorem SetShaderSource_void_main cfg (this : Shader) tr :
  (GLOVE_SAVE_SHADER_SOURCES_TO_FILES cfg = true -> mShaderCompiler this <> None) ->
  exists this' tr',
    SetShaderSource cfg 2 (Some void_main_fragments) None this tr
    = Returned (tt, this') tr'
    /\ mSource this' = Some (map Some (bytes_of "void main() {}" ++ [x00]))
    /\ mSourceLength this' = 14
    /\ GetShaderSourceLength this' = 15.
Proof.
  intros Hcomp.
  rewrite (SetShaderSource_eq cfg 2 void_main_fragments None
             [bytes_of "void main() {"; bytes_of "}"] this tr);
    [ | lia | reflexivity | reflexivity | auto ].
  change (total_length [bytes_of "void main() {"; bytes_of "}"]) with 14.
  cbn [Z.eqb Pos.eqb]. do 2 eexists. repeat split.
Qed.

(** The scenario on a fresh shader. *)
Lemma SetShaderSource_void_main_witness :
  exists this' tr',
    SetShaderSource debug_build 2 (Some void_main_fragments) None (new device) []
    = Returned (tt, this') tr'
    /\ mSource this' = Some (map Some (bytes_of "void main() {}" ++ [x00]))
    /\ mSourceLength this' = 14
    /\ GetShaderSourceLength this' = 15.
Proof.
  apply (SetShaderSource_void_main debug_build (new device) []).
  intros H. discriminate H.
Defined.

End ShaderFacts.

(** * Further properties of RenderPass *)

Module RenderPassExtras.
Import RenderPass RenderPassOps RenderPassSpec RenderPassLife RenderPassFacts Examples.

(** A property of object and trace that every operation keeps is kept by
    every sequence of operations. *)
Lemma run_invariant cfg (P : RenderPass -> Trace -> Prop) :
  (forall op this tr this' tr',
      P this tr -> exec cfg op this tr = Returned (tt, this') tr' -> P this' tr') ->
  forall ops this tr this' tr',
    P this tr -> run cfg ops this tr = Returned (tt, this') tr' -> P this' tr'.
Proof.
  intros Hstep. induction ops as [ | op rest IH ]; intros this tr this' tr' HP Hrun.
  - cbn in Hrun. injection Hrun as <- <-. exact HP.
  - cbn [run] in Hrun. unfold bind in Hrun.
    destruct (exec cfg op this tr) as [[[] this1] tr1 | | ] eqn:He; try discriminate.
    exact (IH this1 tr1 this' tr' (Hstep op this tr this1 tr1 HP He) Hrun).
Qed.

(** What one operation does to object and trace, when it returns. *)
Lemma exec_returned cfg op this tr this' tr' :
  exec cfg op this tr = Returned (tt, this') tr' ->
  match op with
  | OpCreate cf dsf err out =>
      this' = set_mVkRenderPass out this /\ tr' = Create_trace cf dsf this tr
  | OpBegin cb fb rect col d s =>
      this' = set_mStarted true this
      /\ exists info, tr' = tr ++ [vkCmdBeginRenderPass cb info (mVkSubpassContents this)]
  | OpEnd cb =>
      if mStarted this
      then this' = set_mStarted false this /\ tr' = tr ++ [vkCmdEndRenderPass cb]
      else this' = this /\ tr' = tr
  | OpRelease =>
      if mVkRenderPass this =? VK_NULL_HANDLE
      then this' = this /\ tr' = tr
      else this' = set_mVkRenderPass VK_NULL_HANDLE this
           /\ tr' = tr ++ [vkDestroyRenderPass (vkDevice (mVkContext this))
                                               (mVkRenderPass this)]
  end.
Proof.
  destruct op as [cf dsf err out | cb fb rect col d s | cb | ]; cbn [exec].
  - unfold bind. rewrite Create_eq.
    destruct (NDEBUG cfg || (err =? 0)); [ | discriminate ].
    cbn. intros [= <- <-]. split; reflexivity.
  - destruct (Begin_eq cb fb rect col d s this tr) as (info & -> & _).
    intros [= <- <-]. split; [ reflexivity | exists info; reflexivity ].
  - rewrite End_eq. destruct (mStarted this); intros [= <- <-]; split; reflexivity.
  - rewrite Release_eq.
    destruct (mVkRenderPass this =? VK_NULL_HANDLE); intros [= <- <-]; split; reflexivity.
Qed.

Lemma destroyed_render_passes_app tr1 tr2 :
  destroyed_render_passes (tr1 ++ tr2)
  = destroyed_render_passes tr1 ++ destroyed_render_passes tr2.
Proof. unfold destroyed_render_passes. apply flat_map_app. Qed.

Lemma begin_requests_app tr1 tr2 :
  begin_requests (tr1 ++ tr2) = begin_requests tr1 ++ begin_requests tr2.
Proof. unfold begin_requests. apply flat_map_app. Qed.

Lemma scope_exits_app tr1 tr2 :
  scope_exits (tr1 ++ tr2) = (scope_exits tr1 + scope_exits tr2)%nat.
Proof. unfold scope_exits. rewrite flat_map_app, length_app. reflexivity. Qed.

(** ** [Release] and the destructor *)

(** X1. [Release] always returns and leaves the object without a handle; it
    hands the handle held, if any, back to the driver exactly once, and
    changes neither object nor trace when none is held.  A second
    [Release], or the destructor, right after it changes nothing and makes
    no call. *)
Theorem Release_idempotent (this : RenderPass) (tr : Trace) :
  exists this' tr',
    Release this tr = Returned (tt, this') tr'
    /\ mVkRenderPass this' = VK_NULL_HANDLE
    /\ mStarted this' = mStarted this
    /\ tr' = tr ++ map (vkDestroyRenderPass (vkDevice (mVkContext this))) (held this)
    /\ (mVkRenderPass this = VK_NULL_HANDLE -> this' = this /\ tr' = tr)
    /\ Release this' tr' = Returned (tt, this') tr'
    /\ destructor this' tr' = Returned (tt, this') tr'.
Proof.
  unfold destructor, held. rewrite Release_eq.
  destruct (mVkRenderPass this =? VK_NULL_HANDLE) eqn:Hh.
  - exists this, tr. rewrite Release_eq, Hh, app_nil_r.
    apply Z.eqb_eq in Hh. repeat split; assumption.
  - do 2 eexists. split; [ reflexivity | ].
    rewrite Release_eq. cbn. apply Z.eqb_neq in Hh.
    repeat split; try reflexivity; contradiction.
Qed.

(** ** Handles over a whole life *)

Lemma exec_handles cfg op this tr this' tr' :
  exec cfg op this tr = Returned (tt, this') tr' ->
  destroyed_render_passes tr' ++ held this'
  = (destroyed_render_passes tr ++ held this) ++ obtained [op].
Proof.
  intros H. apply exec_returned in H.
  destruct op as [cf dsf err out | cb fb rect col d s | cb | ]; cbn [obtained].
  - destruct H as [-> ->]. unfold Create_trace, held.
    rewrite !destroyed_render_passes_app. cbn [mVkRenderPass set_mVkRenderPass].
    destruct (mVkRenderPass this =? VK_NULL_HANDLE), (out =? VK_NULL_HANDLE);
      cbn; rewrite ?app_nil_r; reflexivity.
  - destruct H as [-> [info ->]]. rewrite destroyed_render_passes_app, !app_nil_r.
    reflexivity.
  - rewrite app_nil_r. destruct (mStarted this); destruct H as [-> ->];
      [ rewrite destroyed_render_passes_app, app_nil_r | ]; reflexivity.
  - rewrite app_nil_r. unfold held at 2.
    destruct (mVkRenderPass this =? VK_NULL_HANDLE) eqn:Hh; destruct H as [-> ->].
    + unfold held. rewrite Hh. reflexivity.
    + rewrite destroyed_render_passes_app. unfold held. cbn. rewrite app_nil_r.
      reflexivity.
Qed.

Lemma obtained_cons op rest : obtained (op :: rest) = obtained [op] ++ obtained rest.
Proof. destruct op; cbn; rewrite ?app_nil_r; reflexivity. Qed.

Lemma run_handles cfg ops :
  forall this tr this' tr',
    run cfg ops this tr = Returned (tt, this') tr' ->
    destroyed_render_passes tr' ++ held this'
    = (destroyed_render_passes tr ++ held this) ++ obtained ops.
Proof.
  induction ops as [ | op rest IH ]; intros this tr this' tr' Hrun.
  - cbn in Hrun. injection Hrun as <- <-. cbn. rewrite app_nil_r. reflexivity.
  - cbn [run] in Hrun. unfold bind in Hrun.
    destruct (exec cfg op this tr) as [[[] this1] tr1 | | ] eqn:He; try discriminate.
    rewrite (IH _ _ _ _ Hrun), (exec_handles _ _ _ _ _ _ He), (obtained_cons op rest).
    rewrite <- !app_assoc. reflexivity.
Qed.

Lemma obtained_not_null ops : ~ In VK_NULL_HANDLE (obtained ops).
Proof.
  induction ops as [ | op rest IH ]; [ intros [] | ].
  rewrite (obtained_cons op rest). intros H.
  apply in_app_or in H as [H | H]; [ | exact (IH H) ].
  destruct op as [cf dsf err out | | | ]; cbn in H; try contradiction.
  destruct (out =? VK_NULL_HANDLE) eqn:E; cbn in H; [ contradiction | ].
  destruct H as [H | []]. apply Z.eqb_neq in E. exact (E H).
Qed.

(** X2. Whatever sequence of Create, Begin, End and Release a render pass
    went through since its construction, once its destructor has run the
    handles handed back to the driver are exactly the non-null handles the
    driver gave out, each once and in the order it gave them; the null
    handle is never handed back, and the object holds no handle. *)
Theorem every_handle_destroyed_once cfg vkContext ops this tr :
  run cfg ops (new vkContext) [] = Returned (tt, this) tr ->
  exists this' tr',
    destructor this tr = Returned (tt, this') tr'
    /\ destroyed_render_passes tr' = obtained ops
    /\ ~ In VK_NULL_HANDLE (destroyed_render_passes tr')
    /\ mVkRenderPass this' = VK_NULL_HANDLE.
Proof.
  intros Hrun.
  destruct (Release_idempotent this tr) as (this' & tr' & HR & Hnull & _ & _ & _ & _ & _).
  exists this', tr'. unfold destructor. split; [ exact HR | ].
  assert (Hall : run cfg (ops ++ [OpRelease]) (new vkContext) [] = Returned (tt, this') tr').
  { clear Hnull. revert Hrun. generalize (new vkContext) (@nil Event).
    induction ops as [ | op rest IH ]; intros s0 t0 Hrun.
    - cbn in Hrun. injection Hrun as -> ->. cbn [app run exec]. unfold bind.
      rewrite HR. reflexivity.
    - cbn [app run] in Hrun |- *. unfold bind in Hrun |- *.
      destruct (exec cfg op s0 t0) as [[[] s1] t1 | | ]; try discriminate.
      exact (IH s1 t1 Hrun). }
  apply run_handles in Hall.
  assert (Hobt : obtained (ops ++ [OpRelease]) = obtained ops).
  { clear. induction ops as [ | op rest IH ]; [ reflexivity | ].
    cbn [app]. rewrite (obtained_cons op rest), (obtained_cons op (rest ++ _)), IH.
    reflexivity. }
  rewrite Hobt in Hall. unfold held in Hall. cbn in Hall.
  rewrite Hnull in Hall. cbn in Hall. rewrite app_nil_r in Hall.
  rewrite Hall. split; [ reflexivity | ]. split; [ apply obtained_not_null | exact Hnull ].
Qed.

Lemma every_handle_destroyed_once_witness :
  exists this tr this' tr',
    run debug_build sample_life (new device) [] = Returned (tt, this) tr
    /\ destructor this tr = Returned (tt, this') tr'
    /\ destroyed_render_passes tr' = [7; 8]
    /\ ~ In VK_NULL_HANDLE (destroyed_render_passes tr')
    /\ mVkRenderPass this' = VK_NULL_HANDLE.
Proof.
  do 2 eexists.
  assert (H : run debug_build sample_life (new device) [] = Returned (tt, _) _)
    by reflexivity.
  destruct (every_handle_destroyed_once debug_build device sample_life _ _ H)
    as (this' & tr' & H1 & H2 & H3 & H4).
  exists this', tr'. repeat split; assumption.
Defined.

(** ** Scopes *)

(** X3. In every sequence of operations on a render pass, the number of
    scope-exit commands recorded, over all command buffers together, never
    exceeds the number of scope-entry commands recorded, and is strictly
    smaller while [started] is true.  (Only the numbers are compared: [End]
    records its command on the buffer it is given, whichever buffer the
    [Begin] before it was given, see [End_on_another_buffer].) *)
Theorem End_never_outnumbers_Begin cfg vkContext ops this tr :
  run cfg ops (new vkContext) [] = Returned (tt, this) tr ->
  (scope_exits tr <= length (begin_requests tr))%nat
  /\ (mStarted this = true -> (scope_exits tr < length (begin_requests tr))%nat).
Proof.
  apply (run_invariant cfg
           (fun this tr =>
              (scope_exits tr <= length (begin_requests tr))%nat
              /\ (mStarted this = true ->
                  (scope_exits tr < length (begin_requests tr))%nat))).
  - intros op s0 t0 s1 t1 [Hle Hlt] He. apply exec_returned in He.
    destruct op as [cf dsf err out | cb fb rect col d s | cb | ].
    + destruct He as [-> ->]. unfold Create_trace.
      rewrite !scope_exits_app, !begin_requests_app, !length_app.
      cbn [mStarted set_mVkRenderPass].
      destruct (mVkRenderPass s0 =? VK_NULL_HANDLE); cbn; split; try intros Hs;
        try specialize (Hlt Hs); lia.
    + destruct He as [-> [info ->]].
      rewrite !scope_exits_app, !begin_requests_app, !length_app. cbn.
      split; [ lia | intros _; lia ].
    + destruct (mStarted s0) eqn:Hs; destruct He as [-> ->].
      * specialize (Hlt eq_refl).
        rewrite !scope_exits_app, !begin_requests_app, !length_app. cbn.
        split; [ lia | discriminate ].
      * split; [ exact Hle | rewrite Hs; discriminate ].
    + destruct (mVkRenderPass s0 =? VK_NULL_HANDLE); destruct He as [-> ->].
      * split; assumption.
      * rewrite !scope_exits_app, !begin_requests_app, !length_app. cbn.
        split; [ lia | intros Hs; specialize (Hlt Hs); lia ].
  - cbn. split; [ lia | discriminate ].
Qed.

Lemma End_never_outnumbers_Begin_witness :
  exists this tr,
    run debug_build sample_life (new device) [] = Returned (tt, this) tr
    /\ length (begin_requests tr) = 2%nat
    /\ (scope_exits tr <= length (begin_requests tr))%nat
    /\ (mStarted this = true -> (scope_exits tr < length (begin_requests tr))%nat).
Proof.
  do 2 eexists. split; [ reflexivity | ]. split; [ reflexivity | ].
  apply (End_never_outnumbers_Begin debug_build device sample_life).
  reflexivity.
Defined.

(** The buffer of an [End] is not compared with the buffer of the [Begin]. *)
Example End_on_another_buffer :
  exists this tr,
    run debug_build [OpBegin 1 1 area (0, 0, 0, 0) 0 0; OpEnd 2] (new device) []
    = Returned (tt, this) tr
    /\ In (vkCmdEndRenderPass 2) tr
    /\ (forall info contents, ~ In (vkCmdBeginRenderPass 2 info contents) tr)
    /\ scope_exits tr = 1%nat /\ length (begin_requests tr) = 1%nat.
Proof.
  do 2 eexists. split; [ reflexivity | ].
  split; [ right; left; reflexivity | ].
  split; [ | split; reflexivity ].
  intros info contents [H | [H | []]]; discriminate H.
Qed.

(** ** What no method writes *)

(** X4. No sequence of Create, Begin, End and Release changes the device
    context, the subpass contents, the pipeline bind point or any of the six
    clear and write flags of a render pass. *)
Theorem run_keeps_configuration cfg ops (this : RenderPass) tr this' tr' :
  run cfg ops this tr = Returned (tt, this') tr' ->
  configuration this' = configuration this.
Proof.
  apply (run_invariant cfg (fun s _ => configuration s = configuration this));
    [ | reflexivity ].
  intros op s0 t0 s1 t1 HP He. apply exec_returned in He. rewrite <- HP.
  destruct op as [cf dsf err out | cb fb rect col d s | cb | ].
  - destruct He as [-> _]. reflexivity.
  - destruct He as [-> _]. reflexivity.
  - destruct (mStarted s0); destruct He as [-> _]; reflexivity.
  - destruct (mVkRenderPass s0 =? VK_NULL_HANDLE); destruct He as [-> _]; reflexivity.
Qed.

Lemma run_keeps_configuration_witness :
  exists this' tr',
    run debug_build sample_life clear_color_and_stencil [] = Returned (tt, this') tr'
    /\ configuration this' = configuration clear_color_and_stencil.
Proof.
  do 2 eexists. split; [ reflexivity | ].
  eapply (run_keeps_configuration debug_build sample_life clear_color_and_stencil []).
  reflexivity.
Defined.

(** ** The request of [Create], whatever the formats *)

(** X5. Whatever the flags and the two formats, the request [Create] hands
    to the driver is well formed: it has as many attachments as formats are
    defined (none when both are undefined, and the request is still made),
    every description has one sample and an undefined initial layout, the
    subpass has a colour (depth/stencil) reference exactly when the colour
    (depth/stencil) format is defined, each reference lies inside the
    attachment array and points at the description of its own format with
    the final layout the reference names, and there are no input, preserve
    or resolve attachments and no dependencies. *)
Theorem Create_request_well_formed cfg (this : RenderPass) cf dsf err out :
  exists info sp,
    render_pass_requests (trace_of (Create cfg cf dsf err out this [])) = [info]
    /\ pSubpasses info = [sp]
    /\ attachmentCount info = defined_formats cf dsf
    /\ Z.of_nat (length (pAttachments info)) = defined_formats cf dsf
    /\ Forall (fun a => samples a = VK_SAMPLE_COUNT_1_BIT
                        /\ initialLayout a = VK_IMAGE_LAYOUT_UNDEFINED)
              (pAttachments info)
    /\ (pColorAttachments sp = None <-> cf = VK_FORMAT_UNDEFINED)
    /\ (pDepthStencilAttachment sp = None <-> dsf = VK_FORMAT_UNDEFINED)
    /\ (forall r, pColorAttachments sp = Some r ->
                  refers_to info r cf
                  /\ layout r = VK_IMAGE_LAYOUT_COLOR_ATTACHMENT_OPTIMAL)
    /\ (forall r, pDepthStencilAttachment sp = Some r ->
                  refers_to info r dsf
                  /\ layout r = VK_IMAGE_LAYOUT_DEPTH_STENCIL_ATTACHMENT_OPTIMAL)
    /\ colorAttachmentCount sp = (if cf =? VK_FORMAT_UNDEFINED then 0 else 1)
    /\ inputAttachmentCount sp = 0 /\ pInputAttachments sp = None
    /\ preserveAttachmentCount sp = 0 /\ pPreserveAttachments sp = None
    /\ pResolveAttachments sp = None
    /\ dependencyCount info = 0 /\ pDependencies info = None.
Proof.
  destruct (create_info_subpasses this cf dsf)
    as (sp & Hsp & _ & Hdep & Hcount & Hcc & Hcol & Hds & Hi1 & Hi2 & Hp1 & Hp2 & Hres).
  pose proof (create_info_attachments this cf dsf) as Hatt.
  exists (create_info this cf dsf), sp.
  split; [ apply Create_requests | ]. split; [ exact Hsp | ].
  assert (Hlen : Z.of_nat (length (pAttachments (create_info this cf dsf)))
                 = defined_formats cf dsf).
  { rewrite Hatt. unfold defined_formats.
    destruct (cf =? VK_FORMAT_UNDEFINED), (dsf =? VK_FORMAT_UNDEFINED); reflexivity. }
  split; [ rewrite Hcount; exact Hlen | ]. split; [ exact Hlen | ].
  split.
  { rewrite Hatt.
    destruct (cf =? VK_FORMAT_UNDEFINED), (dsf =? VK_FORMAT_UNDEFINED);
      repeat constructor. }
  assert (Hnodep : pDependencies (create_info this cf dsf) = None).
  { unfold create_info.
    destruct (cf =? VK_FORMAT_UNDEFINED), (dsf =? VK_FORMAT_UNDEFINED); reflexivity. }
  unfold refers_to. rewrite Hcount, Hlen, Hatt, Hcol, Hds, Hcc. unfold defined_formats.
  destruct (Z.eqb_spec cf VK_FORMAT_UNDEFINED) as [Ec | Ec];
    destruct (Z.eqb_spec dsf VK_FORMAT_UNDEFINED) as [Ed | Ed].
  all: repeat match goal with
              | |- _ /\ _ => split
              | |- _ <-> _ => split
              | |- forall _, _ => intro
              | H : None = Some _ |- _ => discriminate H
              | H : Some _ = None |- _ => discriminate H
              | H : Some _ = Some _ |- _ => injection H as <-
              end;
       try assumption; try reflexivity; try contradiction; cbn; try lia;
       try (eexists; repeat split; reflexivity).
Qed.

(** ** [Create] followed by [Begin] *)

Lemma Create_trace_requests cf dsf this :
  render_pass_requests (Create_trace cf dsf this []) = [create_info this cf dsf]
  /\ begin_requests (Create_trace cf dsf this []) = [].
Proof.
  unfold Create_trace.
  rewrite render_pass_requests_app, begin_requests_app.
  destruct (mVkRenderPass this =? VK_NULL_HANDLE); split; reflexivity.
Qed.

(** X6. When a [Create] that returns is followed by a [Begin], the scope is
    opened on the handle the driver has just given, with the subpass
    contents of the object and always two clear values, the colour in slot 0
    and the depth/stencil value in slot 1, which is never fewer than the
    attachments created.  The slot at the index of the colour attachment
    holds the colour value.  The slot at the index of the depth/stencil
    attachment holds the depth/stencil value when the colour format is
    defined; when it is undefined that attachment has index 0, and the slot
    at its index holds the colour value. *)
Theorem Create_then_Begin_clear_values
        cfg (this : RenderPass) cf dsf err out cb fb rect c0 c1 c2 c3 d s :
  NDEBUG cfg = true \/ err = VK_SUCCESS ->
  exists info sp bi,
    let o := (Create cfg cf dsf err out ;; Begin cb fb rect (c0, c1, c2, c3) d s) this [] in
    result_of o = Some tt
    /\ render_pass_requests (trace_of o) = [info] /\ pSubpasses info = [sp]
    /\ begin_requests (trace_of o) = [(bi, mVkSubpassContents this)]
    /\ renderPass bi = out /\ framebuffer bi = fb /\ renderArea bi = rect
    /\ clearValueCount bi = 2
    /\ pClearValues bi = [color_float32 c0 c1 c2 c3; depthStencil d s]
    /\ attachmentCount info <= clearValueCount bi
    /\ (forall r, pColorAttachments sp = Some r ->
                  nth_error (pClearValues bi) (Z.to_nat (attachment r))
                  = Some (color_float32 c0 c1 c2 c3))
    /\ (forall r, pDepthStencilAttachment sp = Some r ->
                  nth_error (pClearValues bi) (Z.to_nat (attachment r))
                  = Some (if cf =? VK_FORMAT_UNDEFINED
                          then color_float32 c0 c1 c2 c3 else depthStencil d s)).
Proof.
  intros Hret.
  assert (Hb : NDEBUG cfg || (err =? 0) = true).
  { destruct Hret as [-> | ->]; [ reflexivity | apply orb_true_r ]. }
  destruct (create_info_subpasses this cf dsf)
    as (sp & Hsp & _ & _ & Hcount & _ & Hcol & Hds & _).
  pose proof (create_info_attachments this cf dsf) as Hatt.
  destruct (Create_trace_requests cf dsf this) as [Hreq Hbeg].
  exists (create_info this cf dsf), sp.
  eexists. cbv zeta. unfold bind. rewrite Create_eq, Hb.
  unfold Begin, bind, get, call, modify. cbn [trace_of result_of].
  rewrite render_pass_requests_app, begin_requests_app, Hreq, Hbeg.
  cbn [app render_pass_requests begin_requests flat_map
       mVkSubpassContents mVkRenderPass set_mVkRenderPass
       renderPass framebuffer renderArea clearValueCount pClearValues].
  repeat (split; [ reflexivity || assumption | ]).
  rewrite Hcount, Hatt, Hcol, Hds.
  destruct (cf =? VK_FORMAT_UNDEFINED), (dsf =? VK_FORMAT_UNDEFINED); cbn;
    (split; [ lia | ]); split; intros r [= <-]; reflexivity.
Qed.

Lemma Create_then_Begin_clear_values_witness :
  exists info sp bi,
    let o := (Create debug_build VK_FORMAT_UNDEFINED VK_FORMAT_D24_UNORM_S8_UINT
                     VK_SUCCESS 7 ;;
              Begin 1 1 area (10, 11, 12, 13) 14 15) (new device) [] in
    result_of o = Some tt
    /\ render_pass_requests (trace_of o) = [info] /\ pSubpasses info = [sp]
    /\ begin_requests (trace_of o)
       = [(bi, VK_SUBPASS_CONTENTS_SECONDARY_COMMAND_BUFFERS)]
    /\ renderPass bi = 7 /\ framebuffer bi = 1 /\ renderArea bi = area
    /\ clearValueCount bi = 2
    /\ pClearValues bi = [color_float32 10 11 12 13; depthStencil 14 15]
    /\ attachmentCount info <= clearValueCount bi
    /\ (forall r, pColorAttachments sp = Some r ->
                  nth_error (pClearValues bi) (Z.to_nat (attachment r))
                  = Some (color_float32 10 11 12 13))
    /\ (forall r, pDepthStencilAttachment sp = Some r ->
                  nth_error (pClearValues bi) (Z.to_nat (attachment r))
                  = Some (color_float32 10 11 12 13)).
Proof.
  apply (Create_then_Begin_clear_values debug_build (new device)
           VK_FORMAT_UNDEFINED VK_FORMAT_D24_UNORM_S8_UINT VK_SUCCESS 7
           1 1 area 10 11 12 13 14 15).
  right. reflexivity.
Defined.

End RenderPassExtras.

(** * Further properties of Shader *)

Module ShaderExtras.
Import Shader ShaderSpec ShaderLife ShaderFacts Examples.

(** ** The info log *)

(** A text and its terminator are the first bytes of the C string. *)
Lemma c_string_terminated s :
  forall t, c_string s = Some t ->
            firstn (S (length t)) s = t ++ [x00] /\ (S (length t) <= length s)%nat.
Proof.
  induction s as [ | b rest IH ]; intros t H; cbn in H; [ discriminate | ].
  destruct (Byte.eqb b x00) eqn:Eb.
  - injection H as <-. apply Byte.byte_dec_bl in Eb. subst b. cbn. split; [ reflexivity | lia ].
  - destruct (c_string rest) as [t' | ]; [ | discriminate ].
    injection H as <-. destruct (IH t' eq_refl) as [Hf Hl].
    cbn [length app]. rewrite firstn_cons, Hf. cbn [length]. split; [ reflexivity | lia ].
Qed.

(** A fresh buffer filled from its first cell to its last. *)
Lemma fill_buffer (data : list cell) :
  memcpy_write (new_char (Z.of_nat (length data))) 0 data = Some data.
Proof.
  pose proof (memcpy_write_eq [] (new_char (Z.of_nat (length data))) data) as H.
  cbn [app length Z.of_nat] in H. rewrite H.
  - rewrite skipn_all2, app_nil_r; [ reflexivity | ].
    unfold new_char. rewrite repeat_length. lia.
  - unfold new_char. rewrite repeat_length. lia.
Qed.

Lemma read_last_cell (t : list byte) :
  read_cell (map Some (t ++ [x00])) (Z.of_nat (length t)) = Some x00.
Proof.
  unfold read_cell.
  replace (Z.of_nat (length t) <? 0) with false by (symmetry; apply Z.ltb_ge; lia).
  rewrite Nat2Z.id, map_app, nth_error_app2 by (rewrite length_map; lia).
  rewrite length_map, Nat.sub_diag. reflexivity.
Qed.

(** X7. With a compiler attached whose log is a terminated text shorter
    than 2^31 - 1 bytes, [GetInfoLog] returns a buffer that holds exactly
    that text followed by one terminator (the write behind the end of the
    buffer, guarded by the test of its last byte, does not happen), and
    [GetInfoLogLength] returns the length of the text, one less than the
    size of that buffer; neither changes the shader or calls the driver. *)
Theorem GetInfoLog_copies_log (this : Shader) tr c text t :
  mShaderCompiler this = Some c ->
  c_string text = Some t ->
  Z.of_nat (length t) + 1 < 2 ^ 31 ->
  GetInfoLog (Some text) this tr = Returned (Some (map Some (t ++ [x00])), this) tr
  /\ GetInfoLogLength (Some text) this tr = Returned (Z.of_nat (length t), this) tr
  /\ Z.of_nat (length (map Some (t ++ [x00]))) = Z.of_nat (length t) + 1.
Proof.
  intros Hc Ht Hlt.
  destruct (c_string_strlen text t Ht) as (Hlen & _ & _).
  destruct (c_string_terminated text t Ht) as (Hfirst & Hle).
  split; [ | split ].
  - unfold GetInfoLog.
    erewrite bind_returned by reflexivity. rewrite Hc.
    erewrite bind_returned by reflexivity.
    rewrite Hlen.
    erewrite bind_returned by reflexivity.
    rewrite u32_small by lia.
    replace (Z.of_nat (length t) + 1) with (Z.of_nat (S (length t))) by lia.
    rewrite (memcpy_read_firstn text _ Hle), Hfirst.
    erewrite bind_returned by reflexivity.
    replace (Z.of_nat (S (length t)))
      with (Z.of_nat (length (map (@Some byte) (t ++ [x00]))))
      by (rewrite length_map, length_app; cbn; lia).
    rewrite fill_buffer.
    erewrite bind_returned by reflexivity.
    rewrite length_map, length_app. cbn [length].
    replace (u32 (Z.of_nat (length t + 1) - 1)) with (Z.of_nat (length t))
      by (rewrite u32_small; lia).
    rewrite read_last_cell.
    erewrite bind_returned by reflexivity.
    reflexivity.
  - unfold GetInfoLogLength.
    erewrite bind_returned by reflexivity. rewrite Hc.
    erewrite bind_returned by reflexivity.
    rewrite Hlen.
    erewrite bind_returned by reflexivity.
    rewrite to_int_small by lia. reflexivity.
  - rewrite length_map, length_app. cbn. lia.
Qed.

(** The log after a successful compilation. *)
Lemma GetInfoLog_copies_log_witness :
  GetInfoLog (Some (bytes_of "ok" ++ [x00; x41])) vertex_shader []
  = Returned (Some (map Some (bytes_of "ok" ++ [x00])), vertex_shader) []
  /\ GetInfoLogLength (Some (bytes_of "ok" ++ [x00; x41])) vertex_shader []
     = Returned (2, vertex_shader) []
  /\ Z.of_nat (length (map (@Some byte) (bytes_of "ok" ++ [x00]))) = 2 + 1.
Proof.
  apply (GetInfoLog_copies_log vertex_shader [] 0%nat
           (bytes_of "ok" ++ [x00; x41]) (bytes_of "ok")).
  - reflexivity.
  - reflexivity.
  - reflexivity.
Defined.

(** X8. The two log methods treat the null pointers differently.  Without
    a compiler [GetInfoLog] returns the null pointer and asks nothing, while
    [GetInfoLogLength] dereferences the null compiler.  With a compiler
    whose log is the null pointer [GetInfoLogLength] returns 0, while
    [GetInfoLog] measures the null pointer with [strlen]. *)
Theorem info_log_null_pointers (this : Shader) (tr : Trace) infoLog :
  (mShaderCompiler this = None ->
     GetInfoLog infoLog this tr = Returned (None, this) tr
     /\ GetInfoLogLength infoLog this tr = Undefined)
  /\ (mShaderCompiler this <> None ->
      GetInfoLogLength None this tr = Returned (0, this) tr
      /\ GetInfoLog None this tr = Undefined).
Proof.
  unfold GetInfoLog, GetInfoLogLength, bind, get, defined.
  destruct (mShaderCompiler this) as [c | ]; split; intros H;
    try discriminate H; try (exfalso; apply H; reflexivity); split; reflexivity.
Qed.

(** ** Frames *)

Section Frames.
Variable R : Shader -> Trace -> Shader -> Trace -> Prop.
Hypothesis R_refl : forall s tr, R s tr s tr.
Hypothesis R_trans :
  forall s1 t1 s2 t2 s3 t3, R s1 t1 s2 t2 -> R s2 t2 s3 t3 -> R s1 t1 s3 t3.

Lemma frames_ret {A} (a : A) : frames R (ret a).
Proof. intros s tr a' s' tr' [= _ <- <-]. apply R_refl. Qed.

Lemma frames_get : frames R get.
Proof. intros s tr a' s' tr' [= _ <- <-]. apply R_refl. Qed.

Lemma frames_abort {A} : frames R (@abort Shader A).
Proof. intros s tr a' s' tr' [=]. Qed.

Lemma frames_defined {A} (o : option A) : frames R (defined o).
Proof. destruct o; [ apply frames_ret | intros s tr a' s' tr' [=] ]. Qed.

Lemma frames_assert cfg b : frames R (assert cfg b).
Proof.
  unfold assert. destruct (NDEBUG cfg); [ apply frames_ret | ].
  destruct b; [ apply frames_ret | apply frames_abort ].
Qed.

Lemma frames_bind {A B} (m : M Shader A) (k : A -> M Shader B) :
  frames R m -> (forall a, frames R (k a)) -> frames R (bind m k).
Proof.
  intros Hm Hk s tr b s' tr' H. unfold bind in H.
  destruct (m s tr) as [[a s1] tr1 | | ] eqn:E; try discriminate.
  exact (R_trans _ _ _ _ _ _ (Hm _ _ _ _ _ E) (Hk _ _ _ _ _ _ H)).
Qed.

Lemma frames_when b (m : M Shader unit) : frames R m -> frames R (when b m).
Proof. intros H. destruct b; [ exact H | apply frames_ret ]. Qed.

Lemma frames_for {A} (body : nat -> A -> M Shader A) :
  (forall i a, frames R (body i a)) -> forall n i a, frames R (for_ n i body a).
Proof.
  intros Hb. induction n as [ | n IH ]; intros i a; cbn [for_].
  - apply frames_ret.
  - apply frames_bind; [ apply Hb | intro; apply IH ].
Qed.
End Frames.

Lemma unchanged_refl s tr : unchanged s tr s tr.
Proof. split; reflexivity. Qed.

Lemma unchanged_trans s1 t1 s2 t2 s3 t3 :
  unchanged s1 t1 s2 t2 -> unchanged s2 t2 s3 t3 -> unchanged s1 t1 s3 t3.
Proof. intros [-> ->] [-> ->]. split; reflexivity. Qed.

Lemma source_only_refl s tr : source_only s tr s tr.
Proof. repeat split. Qed.

Lemma source_only_trans s1 t1 s2 t2 s3 t3 :
  source_only s1 t1 s2 t2 -> source_only s2 t2 s3 t3 -> source_only s1 t1 s3 t3.
Proof. unfold source_only. intuition congruence. Qed.

Lemma source_only_modify (f : Shader -> Shader) :
  (forall s, source_only s [] (f s) []) -> frames source_only (modify f).
Proof.
  intros H s tr a s' tr' [= _ <- <-].
  destruct (H s) as (H1 & H2 & H3 & H4 & H5 & H6 & _). repeat split; assumption.
Qed.

Lemma source_only_call e :
  destroyed_shader_modules [e] = [] -> shader_module_requests [e] = [] ->
  frames source_only (call e).
Proof.
  intros Hd Hr s tr a s' tr' [= _ <- <-].
  unfold source_only, destroyed_shader_modules, shader_module_requests in *.
  rewrite !flat_map_app, Hd, Hr, !app_nil_r. repeat split.
Qed.

(** Steps through a computation, one frame lemma at a time. *)
Ltac frames_with refl trans :=
  repeat first
    [ apply (frames_ret _ refl) | apply (frames_get _ refl) | apply frames_abort
    | apply (frames_defined _ refl) | apply (frames_assert _ refl)
    | apply (frames_when _ refl)
    | apply (frames_for _ refl trans); intros
    | apply (frames_bind _ trans); [ | intro ]
    | apply source_only_modify; intro; repeat split
    | apply source_only_call; reflexivity
    | match goal with
      | |- frames _ (match ?x with _ => _ end) => destruct x
      end ].

Lemma GetShaderSource_unchanged : frames unchanged GetShaderSource.
Proof. unfold GetShaderSource. frames_with unchanged_refl unchanged_trans. Qed.

Lemma GetInfoLog_unchanged infoLog : frames unchanged (GetInfoLog infoLog).
Proof. unfold GetInfoLog. frames_with unchanged_refl unchanged_trans. Qed.

Lemma GetInfoLogLength_unchanged infoLog : frames unchanged (GetInfoLogLength infoLog).
Proof. unfold GetInfoLogLength. frames_with unchanged_refl unchanged_trans. Qed.

Lemma SetShaderSource_source_only cfg count source length :
  frames source_only (SetShaderSource cfg count source length).
Proof.
  unfold SetShaderSource, FreeSources, count_length, copy_fragment.
  frames_with source_only_refl source_only_trans.
Qed.

(** ** Modules *)

Lemma set_mVkShaderModule_same this :
  set_mVkShaderModule (mVkShaderModule this) this = this.
Proof. destruct this; reflexivity. Qed.

Lemma destroyed_shader_modules_app tr1 tr2 :
  destroyed_shader_modules (tr1 ++ tr2)
  = destroyed_shader_modules tr1 ++ destroyed_shader_modules tr2.
Proof. unfold destroyed_shader_modules. apply flat_map_app. Qed.

Lemma destroyed_shader_modules_held dev this :
  destroyed_shader_modules (map (vkDestroyShaderModule dev) (held this)) = held this.
Proof. unfold held. destruct (mVkShaderModule this =? VK_NULL_HANDLE); reflexivity. Qed.


Lemma DestroyVkShader_held this tr :
  DestroyVkShader this tr
  = Returned (tt, set_mVkShaderModule VK_NULL_HANDLE this)
             (tr ++ map (vkDestroyShaderModule (vkDevice (mVkContext this))) (held this)).
Proof.
  rewrite DestroyVkShader_eq. unfold held.
  destruct (mVkShaderModule this =? VK_NULL_HANDLE) eqn:Hh; [ | reflexivity ].
  apply Z.eqb_eq in Hh. rewrite app_nil_r, <- Hh, set_mVkShaderModule_same. reflexivity.
Qed.

Lemma CreateVkShaderModule_eq cfg err out this tr :
  CreateVkShaderModule cfg err out this tr
  = if negb (NDEBUG cfg) && negb (is_vertex_or_fragment (mShaderType this))
    then Aborted tr
    else
      let tr1 := tr ++ map (vkDestroyShaderModule (vkDevice (mVkContext this)))
                           (held this) in
      match mSpv this with
      | [] => Returned (VK_NULL_HANDLE, set_mVkShaderModule VK_NULL_HANDLE this) tr1
      | _ :: _ =>
          Returned (if err =? 0 then out else VK_NULL_HANDLE, set_mVkShaderModule out this)
                   (tr1 ++ [vkCreateShaderModule (vkDevice (mVkContext this))
                                                 (module_request (mSpv this))])
      end.
Proof.
  unfold CreateVkShaderModule.
  erewrite bind_returned by reflexivity.
  unfold assert.
  destruct (NDEBUG cfg); destruct (is_vertex_or_fragment (mShaderType this));
    cbn [negb andb]; try reflexivity.
  all: erewrite bind_returned by reflexivity.
  all: rewrite (bind_returned _ _ _ _ _ _ _ (DestroyVkShader_held this tr)).
  all: erewrite bind_returned by reflexivity.
  all: cbn [mSpv mVkContext set_mVkShaderModule]; cbv zeta.
  all: destruct (mSpv this) as [ | w ws ]; [ reflexivity | ].
  all: unfold bind, call, modify, get, ret, module_request; cbn;
       destruct (err =? 0); reflexivity.
Qed.



(** ** One call of a sequence *)

Lemma CompileShader_eq verdict this tr :
  CompileShader verdict this tr
  = match mShaderCompiler this with
    | Some _ => Returned (verdict, set_mCompiled verdict this) tr
    | None => Undefined
    end.
Proof.
  unfold CompileShader, bind, get, defined.
  destruct (mShaderCompiler this); reflexivity.
Qed.

Lemma compiled_after_cons op rest c :
  compiled_after (op :: rest) c = compiled_after rest (compiled_after [op] c).
Proof. destruct op; reflexivity. Qed.

Lemma obtained_modules_cons binary op rest :
  obtained binary (op :: rest) = obtained binary [op] ++ obtained binary rest.
Proof. destruct op; cbn; rewrite ?app_nil_r; reflexivity. Qed.

Lemma held_same_module s s' : mVkShaderModule s' = mVkShaderModule s -> held s' = held s.
Proof. unfold held. intros ->. reflexivity. Qed.

(** What one call does to the members and to the modules, when it returns. *)
Lemma exec_effect cfg op this tr this' tr' :
  exec cfg op this tr = Returned (tt, this') tr' ->
  mCompiled this' = compiled_after [op] (mCompiled this)
  /\ (mVkContext this' = mVkContext this /\ mShaderCompiler this' = mShaderCompiler this
      /\ mSpv this' = mSpv this /\ mShaderType this' = mShaderType this
      /\ mShaderVersion this' = mShaderVersion this)
  /\ destroyed_shader_modules tr' ++ held this'
     = (destroyed_shader_modules tr ++ held this) ++ obtained (mSpv this) [op]
  /\ match op with
     | OpSetShaderSource _ _ _ => True
     | _ => mSource this' = mSource this /\ mSourceLength this' = mSourceLength this
     end.
Proof.
  destruct op as [count source length | verdict | err out | | | infoLog ];
    cbn [exec compiled_after obtained]; intros H.
  - destruct (SetShaderSource_linkage _ _ _ _ _ _ _ _ H) as (Hc & _ & Hm).
    destruct (SetShaderSource_source_only _ _ _ _ _ _ _ _ _ H)
      as (H1 & _ & H3 & H4 & H5 & H6 & H7 & _).
    rewrite H7, (held_same_module _ _ Hm), app_nil_r. repeat split; try assumption.
  - unfold bind in H. rewrite CompileShader_eq in H.
    destruct (mShaderCompiler this) eqn:Ec; [ | discriminate ].
    cbn in H. injection H as <- <-. rewrite app_nil_r. repeat split. exact Ec.
  - unfold bind in H.
    destruct (CreateVkShaderModule cfg err out this tr) as [[h s1] t1 | | ] eqn:E;
      try discriminate.
    cbn in H. injection H as <- <-.
    rewrite CreateVkShaderModule_eq in E.
    destruct (negb (NDEBUG cfg) && negb (is_vertex_or_fragment (mShaderType this)));
      [ discriminate | ].
    cbv zeta in E. destruct (mSpv this) as [ | w ws ] eqn:Es; injection E as _ <- <-.
    + rewrite destroyed_shader_modules_app, destroyed_shader_modules_held.
      unfold held at 1. cbn. rewrite !app_nil_r. repeat split; exact Es.
    + rewrite !destroyed_shader_modules_app, destroyed_shader_modules_held.
      unfold held at 1. cbn [mVkShaderModule set_mVkShaderModule].
      cbn [destroyed_shader_modules flat_map app].
      rewrite !app_nil_r. repeat split; exact Es.
  - rewrite DestroyVkShader_held in H. injection H as <- <-.
    rewrite destroyed_shader_modules_app, destroyed_shader_modules_held.
    unfold held at 1. cbn. rewrite !app_nil_r. repeat split.
  - unfold bind in H.
    destruct (GetShaderSource this tr) as [[r s1] t1 | | ] eqn:E; try discriminate.
    cbn in H. injection H as <- <-.
    destruct (GetShaderSource_unchanged _ _ _ _ _ E) as [-> ->].
    rewrite app_nil_r. repeat split.
  - unfold bind in H.
    destruct (GetInfoLog infoLog this tr) as [[r s1] t1 | | ] eqn:E; try discriminate.
    cbn in H. injection H as <- <-.
    destruct (GetInfoLog_unchanged _ _ _ _ _ _ E) as [-> ->].
    rewrite app_nil_r. repeat split.
Qed.

Lemma run_effect cfg ops :
  forall this tr this' tr',
    run cfg ops this tr = Returned (tt, this') tr' ->
    mCompiled this' = compiled_after ops (mCompiled this)
    /\ (mVkContext this' = mVkContext this /\ mShaderCompiler this' = mShaderCompiler this
        /\ mSpv this' = mSpv this /\ mShaderType this' = mShaderType this
        /\ mShaderVersion this' = mShaderVersion this)
    /\ destroyed_shader_modules tr' ++ held this'
       = (destroyed_shader_modules tr ++ held this) ++ obtained (mSpv this) ops.
Proof.
  induction ops as [ | op rest IH ]; intros this tr this' tr' Hrun.
  - cbn in Hrun. injection Hrun as <- <-. cbn. rewrite app_nil_r. repeat split.
  - cbn [run] in Hrun. unfold bind in Hrun.
    destruct (exec cfg op this tr) as [[[] s1] t1 | | ] eqn:He; try discriminate.
    destruct (exec_effect _ _ _ _ _ _ He) as (Hc & (H1 & H2 & H3 & H4 & H5) & Hm & _).
    destruct (IH _ _ _ _ Hrun) as (Hc' & (K1 & K2 & K3 & K4 & K5) & Hm').
    rewrite (compiled_after_cons op rest), (obtained_modules_cons (mSpv this) op rest).
    rewrite Hc', Hc, Hm', Hm, H3, <- !app_assoc.
    repeat split; congruence.
Qed.

(** ** The compiled flag *)

(** X10. After any sequence of SetShaderSource, CompileShader,
    CreateVkShaderModule, DestroyVkShader, GetShaderSource and GetInfoLog
    calls that returns, [compiled] is the verdict of the last CompileShader
    if no SetShaderSource came after it, false if a SetShaderSource came
    last of the two, and its initial value if the sequence holds neither;
    the stage, the language version, the compiler and the binary are those
    the sequence started with. *)
Theorem compiled_is_last_verdict cfg ops (this : Shader) tr this' tr' :
  run cfg ops this tr = Returned (tt, this') tr' ->
  mCompiled this' = compiled_after ops (mCompiled this)
  /\ mShaderType this' = mShaderType this
  /\ mShaderVersion this' = mShaderVersion this
  /\ mShaderCompiler this' = mShaderCompiler this
  /\ mSpv this' = mSpv this.
Proof.
  intros Hrun.
  destruct (run_effect _ _ _ _ _ _ Hrun) as (Hc & (_ & H2 & H3 & H4 & H5) & _).
  repeat split; assumption.
Qed.

Lemma compiled_is_last_verdict_witness :
  exists this' tr',
    run debug_build sample_life vertex_shader [] = Returned (tt, this') tr'
    /\ mCompiled this' = false
    /\ mShaderType this' = SHADER_TYPE_VERTEX
    /\ mShaderVersion this' = ESSL_VERSION_100
    /\ mShaderCompiler this' = Some 0%nat
    /\ mSpv this' = [119734787; 65536].
Proof.
  do 2 eexists. split; [ cbv; reflexivity | ].
  eapply (compiled_is_last_verdict debug_build sample_life vertex_shader []).
  cbv. reflexivity.
Defined.

(** ** Modules over a whole life *)

Lemma destructor_eq this tr :
  destructor this tr
  = Returned (tt, set_mVkShaderModule VK_NULL_HANDLE (free_sources this))
             (tr ++ map (vkDestroyShaderModule (vkDevice (mVkContext this))) (held this)).
Proof.
  unfold destructor.
  rewrite (bind_returned _ _ _ _ _ _ _ (FreeSources_eq this tr)).
  rewrite DestroyVkShader_held.
  unfold free_sources, held. destruct (mSource this); reflexivity.
Qed.

Lemma obtained_modules_not_null binary ops : ~ In VK_NULL_HANDLE (obtained binary ops).
Proof.
  induction ops as [ | op rest IH ]; [ intros [] | ].
  rewrite (obtained_modules_cons binary op rest). intros H.
  apply in_app_or in H as [H | H]; [ | exact (IH H) ].
  destruct op as [ | | err out | | | ]; cbn in H; try contradiction.
  destruct binary; cbn in H; [ contradiction | ].
  destruct (Z.eqb_spec out VK_NULL_HANDLE) as [E | E]; cbn in H; [ contradiction | ].
  destruct H as [H | []]. exact (E H).
Qed.

(** X11. Whatever sequence of calls a shader that held no module went
    through, once its destructor has run the modules handed back to the
    driver are exactly the non-null modules the driver gave out (it is asked
    for none while the binary is empty), each once and in the order it gave
    them; the null handle is never handed back, and the shader is left
    without module and without source. *)
Theorem every_module_destroyed_once cfg ops (this : Shader) this' tr' :
  mVkShaderModule this = VK_NULL_HANDLE ->
  run cfg ops this [] = Returned (tt, this') tr' ->
  exists this'' tr'',
    destructor this' tr' = Returned (tt, this'') tr''
    /\ destroyed_shader_modules tr'' = obtained (mSpv this) ops
    /\ ~ In VK_NULL_HANDLE (destroyed_shader_modules tr'')
    /\ mVkShaderModule this'' = VK_NULL_HANDLE
    /\ mSource this'' = None.
Proof.
  intros Hnull Hrun.
  destruct (run_effect _ _ _ _ _ _ Hrun) as (_ & _ & Hm).
  unfold held at 2 in Hm. rewrite Hnull in Hm. cbn in Hm.
  rewrite destructor_eq. do 2 eexists. split; [ reflexivity | ].
  rewrite destroyed_shader_modules_app, destroyed_shader_modules_held, Hm.
  split; [ reflexivity | ]. split; [ apply obtained_modules_not_null | ].
  split; [ reflexivity | ]. cbn. apply mSource_free_sources.
Qed.

Lemma every_module_destroyed_once_witness :
  exists this' tr' this'' tr'',
    run debug_build sample_life vertex_shader [] = Returned (tt, this') tr'
    /\ destructor this' tr' = Returned (tt, this'') tr''
    /\ destroyed_shader_modules tr'' = [5; 6]
    /\ ~ In VK_NULL_HANDLE (destroyed_shader_modules tr'')
    /\ mVkShaderModule this'' = VK_NULL_HANDLE
    /\ mSource this'' = None.
Proof.
  do 2 eexists.
  assert (H : run debug_build sample_life vertex_shader [] = Returned (tt, _) _)
    by (cbv; reflexivity).
  destruct (every_module_destroyed_once debug_build sample_life vertex_shader _ _
              eq_refl H) as (this'' & tr'' & H1 & H2 & H3 & H4 & H5).
  exists this'', tr''. repeat split; assumption.
Defined.

(** ** The stored source *)

Lemma source_ok_same s s' :
  mSource s' = mSource s -> mSourceLength s' = mSourceLength s ->
  source_ok s -> source_ok s'.
Proof. unfold source_ok. intros -> ->. exact (fun H => H). Qed.

Lemma source_ok_cleared this :
  source_ok this -> source_ok (set_mCompiled false (free_sources this)).
Proof.
  unfold source_ok, free_sources. destruct (mSource this) eqn:E; cbn.
  - intros _. reflexivity.
  - rewrite E. exact (fun H => H).
Qed.

(** A [SetShaderSource] with a null array or a count of 0. *)
Lemma SetShaderSource_nothing cfg count source length this tr :
  source = None \/ count = 0 ->
  SetShaderSource cfg count source length this tr
  = Returned (tt, set_mCompiled false (free_sources this)) tr.
Proof.
  intros H. unfold SetShaderSource.
  rewrite (bind_returned _ _ _ _ _ _ _ (FreeSources_eq this tr)).
  erewrite bind_returned by reflexivity.
  destruct source as [src | ]; [ | reflexivity ].
  destruct H as [H | ->]; [ discriminate | reflexivity ].
Qed.

Lemma SetShaderSource_source_ok cfg count source length this tr :
  source_ok this ->
  readable_call cfg count source length this = true ->
  exists this' tr',
    SetShaderSource cfg count source length this tr = Returned (tt, this') tr'
    /\ source_ok this'.
Proof.
  intros Hok Hr. unfold readable_call in Hr.
  destruct source as [src | ].
  - destruct (Z.eqb_spec count 0) as [-> | Hc]; cbn [orb] in Hr.
    + rewrite SetShaderSource_nothing by (right; reflexivity).
      do 2 eexists. split; [ reflexivity | apply source_ok_cleared, Hok ].
    + apply andb_true_iff in Hr as [Hpos Hr]. apply Z.ltb_lt in Hpos.
      destruct (fragment_texts (Z.to_nat count) 0 src length) as [texts | ] eqn:Ht;
        [ | discriminate ].
      apply andb_true_iff in Hr as [Hlt Hcomp]. apply Z.ltb_lt in Hlt.
      pose proof (total_length_nonneg texts) as H0.
      rewrite (SetShaderSource_eq cfg count src length texts this tr Hpos Ht).
      * destruct (Z.eqb_spec (total_length texts) 0) as [Hz | Hz];
          do 2 eexists; (split; [ reflexivity | ]); unfold source_ok; cbn.
        -- rewrite mSource_free_sources. reflexivity.
        -- exists (concat texts). repeat split; try reflexivity; lia.
      * lia.
      * intros Hs Hz Hnone. rewrite Hs, Hnone in Hcomp.
        apply Z.eqb_neq in Hz. rewrite Hz in Hcomp. discriminate.
  - rewrite SetShaderSource_nothing by (left; reflexivity).
    do 2 eexists. split; [ reflexivity | apply source_ok_cleared, Hok ].
Qed.

Lemma readable_call_compiler cfg count source length a b :
  mShaderCompiler a = mShaderCompiler b ->
  readable_call cfg count source length a = readable_call cfg count source length b.
Proof. unfold readable_call. intros ->. reflexivity. Qed.

Lemma readable_run_compiler cfg ops a b :
  mShaderCompiler a = mShaderCompiler b ->
  readable_run cfg ops a = readable_run cfg ops b.
Proof.
  intros H. induction ops as [ | op rest IH ]; [ reflexivity | ].
  destruct op; cbn [readable_run]; rewrite ?IH; try reflexivity.
  rewrite (readable_call_compiler _ _ _ _ a b H). reflexivity.
Qed.

(** X12. The stored source stays well formed: starting from a well-formed
    shader, after any sequence of calls that returns and whose
    SetShaderSource calls have readable arguments, the shader either has no
    source and a stored length of 0, or holds a buffer made of a non-empty
    text of exactly the stored length followed by one terminator, every
    byte of it written. *)
Theorem source_stays_well_formed cfg ops :
  forall (this : Shader) tr this' tr',
    source_ok this ->
    readable_run cfg ops this = true ->
    run cfg ops this tr = Returned (tt, this') tr' ->
    source_ok this'.
Proof.
  induction ops as [ | op rest IH ]; intros this tr this' tr' Hok Hr Hrun.
  - cbn in Hrun. injection Hrun as <- _. exact Hok.
  - cbn [run] in Hrun. unfold bind in Hrun.
    destruct (exec cfg op this tr) as [[[] s1] t1 | | ] eqn:He; try discriminate.
    destruct (exec_effect _ _ _ _ _ _ He) as (_ & (_ & Hcomp & _) & _ & Hsrc).
    assert (Hrest : readable_run cfg rest s1 = true).
    { rewrite (readable_run_compiler cfg rest s1 this Hcomp).
      destruct op; cbn [readable_run] in Hr; try exact Hr.
      apply andb_true_iff in Hr as [_ Hr]. exact Hr. }
    apply (IH s1 t1 this' tr'); [ | exact Hrest | exact Hrun ].
    destruct op as [count source length | | | | | ];
      [ | exact (source_ok_same _ _ (proj1 Hsrc) (proj2 Hsrc) Hok) .. ].
    cbn [readable_run] in Hr. apply andb_true_iff in Hr as [Hr _].
    destruct (SetShaderSource_source_ok cfg count source length this tr Hok Hr)
      as (s2 & t2 & Heq & Hok2).
    cbn [exec] in He. rewrite Heq in He. injection He as <- _. exact Hok2.
Qed.

Lemma source_stays_well_formed_witness :
  exists this' tr',
    run debug_build
        [OpSetShaderSource 2 (Some void_main_fragments) None;
         OpCompileShader true;
         OpCreateVkShaderModule VK_SUCCESS 5;
         OpGetShaderSource]
        vertex_shader [] = Returned (tt, this') tr'
    /\ mSource this' = Some (map Some (bytes_of "void main() {}" ++ [x00]))
    /\ source_ok this'.
Proof.
  do 2 eexists. split; [ cbv; reflexivity | ]. split; [ reflexivity | ].
  eapply (source_stays_well_formed debug_build
            [OpSetShaderSource 2 (Some void_main_fragments) None;
             OpCompileShader true;
             OpCreateVkShaderModule VK_SUCCESS 5;
             OpGetShaderSource]
            vertex_shader []).
  - reflexivity.
  - reflexivity.
  - cbv. reflexivity.
Defined.

(** X13. On a well-formed shader [GetShaderSource] always returns, reads
    nothing outside the stored buffer, leaves the shader as it is and calls
    nobody: it returns the null pointer exactly when
    [GetShaderSourceLength] is 0, and otherwise a buffer equal to the whole
    stored buffer, terminator included, of exactly
    [GetShaderSourceLength] bytes. *)
Theorem GetShaderSource_well_formed (this : Shader) (tr : Trace) :
  source_ok this ->
  GetShaderSource this tr = Returned (mSource this, this) tr
  /\ GetShaderSourceLength this
     = match mSource this with
       | Some buf => Z.of_nat (length buf)
       | None => 0
       end
  /\ (mSource this = None <-> GetShaderSourceLength this = 0)
  /\ GetShaderSourceLength this = (if mSourceLength this =? 0 then 0
                                   else mSourceLength this + 1).
Proof.
  unfold source_ok. destruct (mSource this) as [buf | ] eqn:Hsrc.
  - intros (text & -> & Hlen & Hpos & Hlt).
    assert (HL : GetShaderSourceLength this = mSourceLength this + 1)
      by (apply GetShaderSourceLength_stored; [ reflexivity | lia | lia ]).
    split; [ apply GetShaderSource_stored; [ exact Hsrc | exact Hlen | lia | lia ] | ].
    rewrite HL, length_map, length_app, Hlen.
    replace (Z.of_nat (length text) =? 0) with false by (symmetry; apply Z.eqb_neq; lia).
    cbn [length]. repeat split; try lia; try discriminate.
  - intros Hlen.
    assert (HL : GetShaderSourceLength this = 0)
      by (unfold GetShaderSourceLength; rewrite Hlen; reflexivity).
    split.
    + unfold GetShaderSource. erewrite bind_returned by reflexivity.
      rewrite Hsrc. reflexivity.
    + rewrite HL, Hlen. repeat split.
Qed.

Lemma GetShaderSource_well_formed_witness :
  GetShaderSource compiled_shader []
  = Returned (Some (map Some (bytes_of "void main() {}" ++ [x00])), compiled_shader) []
  /\ GetShaderSourceLength compiled_shader = 15
  /\ (mSource compiled_shader = None <-> GetShaderSourceLength compiled_shader = 0)
  /\ GetShaderSourceLength compiled_shader = 14 + 1.
Proof.
  apply (GetShaderSource_well_formed compiled_shader []).
  exists (bytes_of "void main() {}"). repeat split; reflexivity.
Defined.

(** X14. A [SetShaderSource] with a null array or with a count of 0 throws
    the stored source away, whatever it was and whatever the other
    arguments are: it returns without any call, clears [compiled], and on a
    well-formed shader [GetShaderSource] then returns the null pointer and
    [GetShaderSourceLength] returns 0. *)
Theorem SetShaderSource_nothing_clears cfg count source length (this : Shader) tr :
  source_ok this ->
  source = None \/ count = 0 ->
  exists this',
    SetShaderSource cfg count source length this tr = Returned (tt, this') tr
    /\ mSource this' = None /\ mSourceLength this' = 0 /\ mCompiled this' = false
    /\ GetShaderSource this' tr = Returned (None, this') tr
    /\ GetShaderSourceLength this' = 0.
Proof.
  intros Hok H. rewrite (SetShaderSource_nothing cfg count source length this tr H).
  eexists. split; [ reflexivity | ].
  pose proof (source_ok_cleared this Hok) as Hok'.
  destruct (GetShaderSource_well_formed _ tr Hok') as (HG & HL & _).
  assert (Hs : mSource (set_mCompiled false (free_sources this)) = None)
    by (cbn; apply mSource_free_sources).
  rewrite Hs in HG, HL. unfold source_ok in Hok'. rewrite Hs in Hok'.
  repeat split; assumption.
Qed.

Lemma SetShaderSource_nothing_clears_witness :
  exists this',
    SetShaderSource debug_build 0 (Some void_main_fragments) None compiled_shader []
    = Returned (tt, this') []
    /\ mSource this' = None /\ mSourceLength this' = 0 /\ mCompiled this' = false
    /\ GetShaderSource this' [] = Returned (None, this') []
    /\ GetShaderSourceLength this' = 0.
Proof.
  apply (SetShaderSource_nothing_clears debug_build 0 (Some void_main_fragments) None
           compiled_shader []).
  - exists (bytes_of "void main() {}"). repeat split; reflexivity.
  - right. reflexivity.
Defined.

(** ** The destructor *)

(** X15. The destructor always returns; it frees the source, hands the
    module held, if any, back to the driver exactly once, and leaves the
    shader without source and without module.  Running [FreeSources],
    [DestroyVkShader] or the destructor again changes nothing and makes no
    call: nothing is released twice. *)
Theorem destructor_idempotent (this : Shader) (tr : Trace) :
  exists this' tr',
    destructor this tr = Returned (tt, this') tr'
    /\ mSource this' = None /\ mVkShaderModule this' = VK_NULL_HANDLE
    /\ tr' = tr ++ map (vkDestroyShaderModule (vkDevice (mVkContext this))) (held this)
    /\ FreeSources this' tr' = Returned (tt, this') tr'
    /\ DestroyVkShader this' tr' = Returned (tt, this') tr'
    /\ destructor this' tr' = Returned (tt, this') tr'.
Proof.
  rewrite destructor_eq. do 2 eexists. split; [ reflexivity | ].
  assert (Hs : mSource (set_mVkShaderModule VK_NULL_HANDLE (free_sources this)) = None)
    by (cbn; apply mSource_free_sources).
  assert (Hfree : free_sources (set_mVkShaderModule VK_NULL_HANDLE (free_sources this))
                  = set_mVkShaderModule VK_NULL_HANDLE (free_sources this))
    by (unfold free_sources at 1; rewrite Hs; reflexivity).
  assert (Hdes : forall t,
             DestroyVkShader (set_mVkShaderModule VK_NULL_HANDLE (free_sources this)) t
             = Returned (tt, set_mVkShaderModule VK_NULL_HANDLE (free_sources this)) t).
  { intros t. rewrite DestroyVkShader_eq. reflexivity. }
  split; [ exact Hs | ]. split; [ reflexivity | ]. split; [ reflexivity | ].
  split; [ rewrite FreeSources_eq, Hfree; reflexivity | ].
  split; [ apply Hdes | ].
  unfold destructor.
  rewrite (bind_returned _ _ _ _ _ _ _ (FreeSources_eq _ _)), Hfree. apply Hdes.
Qed.

(** ** A fresh shader *)

(** X16. A freshly constructed shader is well formed and empty: it has no
    source ([GetShaderSource] returns the null pointer and
    [GetShaderSourceLength] 0), no compiler ([GetInfoLog] returns the null
    pointer, whatever the log), stage INVALID and no binary, so that
    [CreateVkShaderModule] aborts where assertions are compiled in and
    returns the null handle without any call where they are compiled out;
    its destructor makes no call. *)
Theorem fresh_shader_is_empty (vkContext : vkContext_t) cfg tr infoLog err out :
  let this := new vkContext in
  source_ok this
  /\ GetShaderSource this tr = Returned (None, this) tr
  /\ GetShaderSourceLength this = 0
  /\ GetInfoLog infoLog this tr = Returned (None, this) tr
  /\ CreateVkShaderModule cfg err out this tr
     = (if NDEBUG cfg then Returned (VK_NULL_HANDLE, this) tr else Aborted tr)
  /\ destructor this tr = Returned (tt, this) tr.
Proof.
  cbv zeta. repeat split.
  unfold CreateVkShaderModule, bind, get, assert. cbn.
  destruct (NDEBUG cfg); reflexivity.
Qed.

(** ** Lengths and fragments *)

(** Two loop bodies that agree on the indices of a loop give the same loop. *)
Lemma for_ext {A} (body1 body2 : nat -> A -> M Shader A) n :
  forall i a s tr,
    (forall j a s tr, (i <= j < i + n)%nat -> body1 j a s tr = body2 j a s tr) ->
    for_ n i body1 a s tr = for_ n i body2 a s tr.
Proof.
  induction n as [ | n IH ]; intros i a s tr H; cbn [for_]; [ reflexivity | ].
  unfold bind. rewrite (H i a s tr) by lia.
  destruct (body2 i a s tr) as [[a1 s1] t1 | | ]; try reflexivity.
  apply IH. intros j a' s' tr' Hj. apply H. lia.
Qed.

(** X17. A lengths array whose first [count] entries are all negative is
    the same as no lengths array: [SetShaderSource] does exactly the same,
    whatever the fragments, the count, the build and the shader (also when
    it does not return). *)
Theorem negative_lengths_as_null cfg count source (lengths : list Z) (this : Shader) tr :
  (forall i, (i < Z.to_nat count)%nat ->
             exists li, nth_error lengths i = Some li /\ li < 0) ->
  SetShaderSource cfg count source (Some lengths) this tr
  = SetShaderSource cfg count source None this tr.
Proof.
  intros Hneg. unfold SetShaderSource.
  rewrite !(bind_returned _ _ _ _ _ _ _ (FreeSources_eq this tr)).
  erewrite !bind_returned by reflexivity.
  destruct source as [src | ]; [ | reflexivity ].
  destruct (count =? 0); [ reflexivity | ].
  destruct (count <? 0); [ reflexivity | ].
  erewrite !bind_returned by reflexivity.
  unfold bind at 1. unfold bind at 10.
  rewrite (for_ext (count_length src (Some lengths)) (count_length src None)).
  - reflexivity.
  - intros j a s t Hj. destruct (Hneg j) as (li & Hli & Hlt); [ lia | ].
    unfold count_length, bind, defined. rewrite Hli. cbn.
    replace (li <? 0) with true by (symmetry; apply Z.ltb_lt; exact Hlt).
    reflexivity.
Qed.

Lemma negative_lengths_as_null_witness :
  SetShaderSource debug_build 2 (Some void_main_fragments) (Some [-1; -7; 3])
                  vertex_shader []
  = SetShaderSource debug_build 2 (Some void_main_fragments) None vertex_shader [].
Proof.
  apply (negative_lengths_as_null debug_build 2 (Some void_main_fragments) [-1; -7; 3]
           vertex_shader []).
  intros i Hi. change (Z.to_nat 2) with 2%nat in Hi.
  destruct i as [ | [ | i ] ]; [ exists (-1) | exists (-7) | lia ];
    split; [ reflexivity | lia | reflexivity | lia ].
Defined.

(** X18. Only the concatenation matters: two [SetShaderSource] calls with
    readable fragments whose texts concatenate to the same bytes do exactly
    the same to the shader, however the text is cut into fragments and
    whether lengths are given or terminators are looked for. *)
Theorem only_the_concatenation_matters
        cfg count1 source1 length1 texts1 count2 source2 length2 texts2
        (this : Shader) tr :
  0 < count1 -> 0 < count2 ->
  fragment_texts (Z.to_nat count1) 0 source1 length1 = Some texts1 ->
  fragment_texts (Z.to_nat count2) 0 source2 length2 = Some texts2 ->
  concat texts1 = concat texts2 ->
  total_length texts1 + 1 < 2 ^ 32 ->
  (GLOVE_SAVE_SHADER_SOURCES_TO_FILES cfg = true -> mShaderCompiler this <> None) ->
  SetShaderSource cfg count1 (Some source1) length1 this tr
  = SetShaderSource cfg count2 (Some source2) length2 this tr.
Proof.
  intros H1 H2 Ht1 Ht2 Hcat Hlt Hcomp.
  assert (Htot : total_length texts2 = total_length texts1)
    by (unfold total_length; rewrite Hcat; reflexivity).
  rewrite (SetShaderSource_eq cfg count1 source1 length1 texts1 this tr H1 Ht1 Hlt)
    by auto.
  rewrite (SetShaderSource_eq cfg count2 source2 length2 texts2 this tr H2 Ht2)
    by (try rewrite Htot; auto).
  rewrite Htot, Hcat. reflexivity.
Qed.

Lemma only_the_concatenation_matters_witness :
  SetShaderSource debug_build 2 (Some void_main_fragments) None vertex_shader []
  = SetShaderSource debug_build 3
      (Some [bytes_of "void main"; bytes_of "() {}trailing"; bytes_of "unread"])
      (Some [9; 5; 0]) vertex_shader [].
Proof.
  apply (only_the_concatenation_matters debug_build
           2 void_main_fragments None [bytes_of "void main() {"; bytes_of "}"]
           3 [bytes_of "void main"; bytes_of "() {}trailing"; bytes_of "unread"]
           (Some [9; 5; 0]) [bytes_of "void main"; bytes_of "() {}"; []]
           vertex_shader []).
  - lia.
  - lia.
  - reflexivity.
  - reflexivity.
  - reflexivity.
  - reflexivity.
  - intros _. discriminate.
Defined.

(** ** The last source wins *)

Lemma cleared_is_with_source this :
  source_ok this -> set_mCompiled false (free_sources this) = with_source None 0 this.
Proof.
  unfold source_ok, free_sources, with_source. destruct this as [c m sc spv src len ty v b].
  cbn. destruct src; [ reflexivity | ]. intros ->. reflexivity.
Qed.

Lemma free_sources_with_source p n this :
  set_mSource p (set_mSourceLength n (set_mCompiled false (free_sources this)))
  = with_source p n this.
Proof.
  unfold free_sources, with_source. destruct this as [c m sc spv src len ty v b].
  cbn. destruct src; reflexivity.
Qed.

(** On a well-formed shader a readable call stores what [stored_source]
    says, and nothing else of the object changes but the flag. *)
Lemma SetShaderSource_stores cfg count source length this tr :
  source_ok this ->
  readable_call cfg count source length this = true ->
  exists tr',
    SetShaderSource cfg count source length this tr
    = Returned (tt, with_source (fst (stored_source count source length))
                                (snd (stored_source count source length)) this) tr'.
Proof.
  intros Hok Hr. unfold readable_call in Hr. unfold stored_source.
  destruct source as [src | ].
  - destruct (Z.eqb_spec count 0) as [-> | Hc]; cbn [orb] in Hr.
    + rewrite SetShaderSource_nothing by (right; reflexivity).
      rewrite (cleared_is_with_source this Hok). eexists; reflexivity.
    + apply andb_true_iff in Hr as [Hpos Hr]. apply Z.ltb_lt in Hpos.
      destruct (fragment_texts (Z.to_nat count) 0 src length) as [texts | ] eqn:Ht;
        [ | discriminate ].
      apply andb_true_iff in Hr as [Hlt Hcomp]. apply Z.ltb_lt in Hlt.
      rewrite (SetShaderSource_eq cfg count src length texts this tr Hpos Ht).
      * destruct (total_length texts =? 0); cbn [fst snd]; eexists.
        -- rewrite <- (free_sources_with_source None 0 this).
           f_equal. f_equal. unfold with_source.
           destruct this as [c m sc spv s0 len ty v b]. unfold free_sources. cbn.
           destruct s0; reflexivity.
        -- rewrite free_sources_with_source. reflexivity.
      * lia.
      * intros Hs Hz Hnone. rewrite Hs, Hnone in Hcomp.
        apply Z.eqb_neq in Hz. rewrite Hz in Hcomp. discriminate.
  - rewrite SetShaderSource_nothing by (left; reflexivity).
    rewrite (cleared_is_with_source this Hok). eexists; reflexivity.
Qed.

(** X19. The last source wins: on a well-formed shader, a readable
    [SetShaderSource] that follows another readable [SetShaderSource]
    leaves the shader exactly as it would have left it alone; nothing of
    the earlier source survives, it is replaced and not appended to. *)
Theorem last_source_wins cfg count1 source1 length1 count2 source2 length2
        (this : Shader) tr :
  source_ok this ->
  readable_call cfg count1 source1 length1 this = true ->
  readable_call cfg count2 source2 length2 this = true ->
  exists this1 tr1 this2 tr2 tr2',
    SetShaderSource cfg count1 source1 length1 this tr = Returned (tt, this1) tr1
    /\ SetShaderSource cfg count2 source2 length2 this1 tr1 = Returned (tt, this2) tr2
    /\ SetShaderSource cfg count2 source2 length2 this tr = Returned (tt, this2) tr2'.
Proof.
  intros Hok Hr1 Hr2.
  destruct (SetShaderSource_stores cfg count1 source1 length1 this tr Hok Hr1)
    as (tr1 & H1).
  destruct (SetShaderSource_source_ok cfg count1 source1 length1 this tr Hok Hr1)
    as (s1 & t1 & H1' & Hok1).
  rewrite H1 in H1'. injection H1' as <- <-.
  assert (Hr2' : readable_call cfg count2 source2 length2
                   (with_source (fst (stored_source count1 source1 length1))
                                (snd (stored_source count1 source1 length1)) this) = true)
    by (rewrite <- Hr2; apply readable_call_compiler; reflexivity).
  destruct (SetShaderSource_stores cfg count2 source2 length2 _ tr1 Hok1 Hr2')
    as (tr2 & H2).
  destruct (SetShaderSource_stores cfg count2 source2 length2 this tr Hok Hr2)
    as (tr2' & H2').
  do 5 eexists. split; [ exact H1 | ]. split; [ exact H2 | exact H2' ].
Qed.

Lemma last_source_wins_witness :
  exists this1 tr1 this2 tr2 tr2',
    SetShaderSource debug_build 2 (Some void_main_fragments) None vertex_shader []
    = Returned (tt, this1) tr1
    /\ SetShaderSource debug_build 1 (Some [bytes_of "precision highp float;"])
                       (Some [9]) this1 tr1 = Returned (tt, this2) tr2
    /\ SetShaderSource debug_build 1 (Some [bytes_of "precision highp float;"])
                       (Some [9]) vertex_shader [] = Returned (tt, this2) tr2'.
Proof.
  apply (last_source_wins debug_build 2 (Some void_main_fragments) None
           1 (Some [bytes_of "precision highp float;"]) (Some [9]) vertex_shader []).
  - reflexivity.
  - reflexivity.
  - reflexivity.
Defined.

End ShaderExtras.
